(** * ContractFlow backend: document review workflow

    A shallow embedding of the HTTP handlers of [app/main.py],
    [app/clauses.py] and [app/ai_chat.py] and of the store accessors of
    [app/database.py].  The MongoDB collections are finite maps keyed by
    [_id]; a handler is a computation in a state-and-exception monad over
    the store, so that a raised [HTTPException] keeps the writes that
    happened before it, as in Python. *)

From stdpp Require Import gmap strings list fin_maps.
From Stdlib Require Import ZArith.
From Stdlib.Strings Require Import Byte Ascii.

#[local] Set Warnings "-clear-no-such-hyp".

Local Open Scope Z_scope.
Local Open Scope string_scope.

(** ** Data model ([app/models.py]) *)

(** [datetime] values, counted in microseconds. *)
Definition datetime := Z.

(** [timedelta(days=n)] in microseconds. *)
Definition timedelta_days (n : Z) : Z := n * 86400000000.

(** A date as the store keeps it and gives it back: a BSON date counts
    whole milliseconds, and the driver drops what is below one when it
    encodes a [datetime], in a document as in a query. *)
Definition bson_date (t : datetime) : datetime := 1000 * (t / 1000).

Inductive DocumentStatus :=
| NEW | PENDING | IN_PROGRESS | CHANGES_MADE | APPROVED.

#[global] Instance DocumentStatus_eq_dec : EqDecision DocumentStatus.
Proof. solve_decision. Defined.

(** The string value of each member of the [str] enumeration; the store
    keeps these strings and the sweep of [database.py] names two of them. *)
Definition status_value (st : DocumentStatus) : string :=
  match st with
  | NEW => "new"
  | PENDING => "pending"
  | IN_PROGRESS => "in_progress"
  | CHANGES_MADE => "changes_made"
  | APPROVED => "approved"
  end.

(** A stored [content] is raw bytes or an already encoded string. *)
Inductive Content :=
| CBytes (b : list Byte.byte)
| CStr (s : string).

(** A stored user.  [role] is kept as the string the handlers compare. *)
Record User := {
  user__id : string;
  user_id : string;
  user_email : string;
  user_password : string;
  user_role : string;
  user_created_at : datetime
}.

(** A stored document.  A field that [DocumentUpdate] declares [Optional]
    can be written as null by a partial update, hence the [option]s. *)
Record Document := {
  doc__id : string;
  doc_title : string;
  doc_content : option Content;
  doc_reviewer_id : string;
  doc_approvers : option (list string);
  doc_status : option DocumentStatus;
  doc_created_at : datetime;
  doc_last_modified : datetime;
  doc_notes : option string;
  doc_last_reviewed_by : option string;
  doc_changes_summary : option string
}.

(** [DocumentUpdate]: every field is optional with default [None]; the
    outer [option] records whether the request set the field at all, which
    is what [dict(exclude_unset=True)] looks at. *)
Record DocumentUpdate := {
  upd_content : option (option string);
  upd_approvers : option (option (list string));
  upd_status : option (option DocumentStatus);
  upd_notes : option (option string);
  upd_changes_summary : option (option string)
}.

(** Attribute access [update.f]: the value set, or the default [None]. *)
Definition field_value {A} (f : option (option A)) : option A :=
  match f with
  | Some v => v
  | None => None
  end.

(** A stored clause, keyed by the hexadecimal form of its [ObjectId]. *)
Record ClauseDoc := {
  clause_title : string;
  clause_description : string;
  clause_domain : string;
  clause_created_at : datetime;
  clause_last_modified : datetime
}.

(** The caller, as the [get_current_user] dependency hands it over. *)
Record CurrentUser := {
  cu__id : string;
  cu_role : string
}.

(** The dictionary handed to [$set]: [Some v] for a key that is present. *)
Record UpdateData := {
  set_content : option (option Content);
  set_approvers : option (option (list string));
  set_status : option (option DocumentStatus);
  set_notes : option (option string);
  set_changes_summary : option (option string);
  set_last_reviewed_by : option (option string);
  set_last_modified : option datetime
}.

Definition no_update : UpdateData :=
  {| set_content := None; set_approvers := None; set_status := None;
     set_notes := None; set_changes_summary := None;
     set_last_reviewed_by := None; set_last_modified := None |}.

(** [upd[k] = v] for each key of the dictionary. *)
Definition with_content v (u : UpdateData) : UpdateData :=
  {| set_content := Some v; set_approvers := set_approvers u;
     set_status := set_status u; set_notes := set_notes u;
     set_changes_summary := set_changes_summary u;
     set_last_reviewed_by := set_last_reviewed_by u;
     set_last_modified := set_last_modified u |}.

Definition with_approvers v (u : UpdateData) : UpdateData :=
  {| set_content := set_content u; set_approvers := Some v;
     set_status := set_status u; set_notes := set_notes u;
     set_changes_summary := set_changes_summary u;
     set_last_reviewed_by := set_last_reviewed_by u;
     set_last_modified := set_last_modified u |}.

Definition with_status v (u : UpdateData) : UpdateData :=
  {| set_content := set_content u; set_approvers := set_approvers u;
     set_status := Some v; set_notes := set_notes u;
     set_changes_summary := set_changes_summary u;
     set_last_reviewed_by := set_last_reviewed_by u;
     set_last_modified := set_last_modified u |}.

Definition with_notes v (u : UpdateData) : UpdateData :=
  {| set_content := set_content u; set_approvers := set_approvers u;
     set_status := set_status u; set_notes := Some v;
     set_changes_summary := set_changes_summary u;
     set_last_reviewed_by := set_last_reviewed_by u;
     set_last_modified := set_last_modified u |}.

Definition with_changes_summary v (u : UpdateData) : UpdateData :=
  {| set_content := set_content u; set_approvers := set_approvers u;
     set_status := set_status u; set_notes := set_notes u;
     set_changes_summary := Some v;
     set_last_reviewed_by := set_last_reviewed_by u;
     set_last_modified := set_last_modified u |}.

Definition with_last_reviewed_by v (u : UpdateData) : UpdateData :=
  {| set_content := set_content u; set_approvers := set_approvers u;
     set_status := set_status u; set_notes := set_notes u;
     set_changes_summary := set_changes_summary u;
     set_last_reviewed_by := Some v;
     set_last_modified := set_last_modified u |}.

Definition with_last_modified t (u : UpdateData) : UpdateData :=
  {| set_content := set_content u; set_approvers := set_approvers u;
     set_status := set_status u; set_notes := set_notes u;
     set_changes_summary := set_changes_summary u;
     set_last_reviewed_by := set_last_reviewed_by u;
     set_last_modified := Some t |}.

(** The effect of [{"$set": update_data}] on one stored document; the
    date among the values is encoded on its way to the store. *)
Definition apply_set (u : UpdateData) (d : Document) : Document :=
  {| doc__id := doc__id d;
     doc_title := doc_title d;
     doc_content := default (doc_content d) (set_content u);
     doc_reviewer_id := doc_reviewer_id d;
     doc_approvers := default (doc_approvers d) (set_approvers u);
     doc_status := default (doc_status d) (set_status u);
     doc_created_at := doc_created_at d;
     doc_last_modified :=
       default (doc_last_modified d)
         (option_map bson_date (set_last_modified u));
     doc_notes := default (doc_notes d) (set_notes u);
     doc_last_reviewed_by :=
       default (doc_last_reviewed_by d) (set_last_reviewed_by u);
     doc_changes_summary :=
       default (doc_changes_summary d) (set_changes_summary u) |}.

(** ** The store and the handler monad *)

Record Store := {
  users_collection : gmap string User;
  documents_collection : gmap string Document;
  clauses_collection : gmap string ClauseDoc
}.

Definition with_documents (f : gmap string Document -> gmap string Document)
    (s : Store) : Store :=
  {| users_collection := users_collection s;
     documents_collection := f (documents_collection s);
     clauses_collection := clauses_collection s |}.

Definition with_users (f : gmap string User -> gmap string User)
    (s : Store) : Store :=
  {| users_collection := f (users_collection s);
     documents_collection := documents_collection s;
     clauses_collection := clauses_collection s |}.

Definition with_clauses (f : gmap string ClauseDoc -> gmap string ClauseDoc)
    (s : Store) : Store :=
  {| users_collection := users_collection s;
     documents_collection := documents_collection s;
     clauses_collection := f (clauses_collection s) |}.

(** Python exceptions.  [detail] is either a literal text or [str(e)] of a
    caught exception, kept symbolic. *)
Inductive exn :=
| HTTPException (status_code : Z) (detail : Detail)
    (headers : list (string * string))
| TypeError (msg : string)
| InvalidId (oid : string)
| DuplicateKeyError (key : string)
| ExternalError (msg : string)
with Detail :=
| Text (s : string)
| StrOf (e : exn).

Definition M (A : Type) : Type := Store -> (exn + A) * Store.

Definition ret {A} (a : A) : M A := fun s => (inr a, s).

Definition raise {A} (e : exn) : M A := fun s => (inl e, s).

Definition bind {A B} (m : M A) (k : A -> M B) : M B :=
  fun s =>
    match m s with
    | (inr a, s') => k a s'
    | (inl e, s') => (inl e, s')
    end.

(** [try: body except Exception as e: handler e] *)
Definition try_except {A} (body : M A) (handler : exn -> M A) : M A :=
  fun s =>
    match body s with
    | (inl e, s') => handler e s'
    | r => r
    end.

Definition gets {A} (f : Store -> A) : M A := fun s => (inr (f s), s).

Definition modify (f : Store -> Store) : M unit := fun s => (inr tt, f s).

Declare Scope handler_scope.
Delimit Scope handler_scope with handler.
Notation "x <- m ;; k" := (bind m (fun x => k))
  (at level 100, m at next level, right associativity) : handler_scope.
Notation "m ;;; k" := (bind m (fun _ => k))
  (at level 100, right associativity) : handler_scope.
Local Open Scope handler_scope.

(** [for x in l: body x] *)
Fixpoint for_each {A} (l : list A) (body : A -> M unit) : M unit :=
  match l with
  | [] => ret tt
  | x :: l' => body x ;;; for_each l' body
  end.

(** The status line of the response FastAPI builds from a handler's
    outcome: an [HTTPException] carries its own code, any other uncaught
    exception becomes the server-error response. *)
Definition http_status {A} (r : exn + A) : Z :=
  match r with
  | inr _ => 200
  | inl (HTTPException c _ _) => c
  | inl _ => 500
  end.

(** ** [base64.b64encode] *)

Definition b64_alphabet : string :=
  "ABCDEFGHIJKLMNOPQRSTUVWXYZabcdefghijklmnopqrstuvwxyz0123456789+/".

Definition b64_char (n : N) : ascii :=
  default "="%char (String.get (N.to_nat n) b64_alphabet).

Definition b64_sextet (n : N) (k : N) : ascii :=
  b64_char (N.land (N.shiftr n (6 * k)) 63).

Fixpoint b64encode (bs : list Byte.byte) : string :=
  match bs with
  | [] => ""
  | [a] =>
      let n := N.shiftl (Byte.to_N a) 16 in
      String (b64_sextet n 3) (String (b64_sextet n 2) "==")
  | [a; b] =>
      let n := N.lor (N.shiftl (Byte.to_N a) 16) (N.shiftl (Byte.to_N b) 8) in
      String (b64_sextet n 3)
        (String (b64_sextet n 2) (String (b64_sextet n 1) "="))
  | a :: b :: c :: rest =>
      let n := N.lor (N.lor (N.shiftl (Byte.to_N a) 16)
                            (N.shiftl (Byte.to_N b) 8)) (Byte.to_N c) in
      String (b64_sextet n 3)
        (String (b64_sextet n 2)
           (String (b64_sextet n 1)
              (String (b64_sextet n 0) (b64encode rest))))
  end.

(** [if doc.get("content"): if isinstance(doc["content"], bytes): ...] *)
Definition encode_content (d : Document) : Document :=
  match doc_content d with
  | Some (CBytes (b :: bs)) =>
      apply_set (with_content (Some (CStr (b64encode (b :: bs)))) no_update) d
  | _ => d
  end.


(** ** Store accessors ([app/database.py]) *)

Module database.

(** The sweep: [update_many({"status": "new", "created_at": {"$lt":
    one_day_ago}}, {"$set": {"status": "pending"}})].  The bound travels
    in the query as a BSON date. *)
Definition sweep_matches (one_day_ago : datetime) (d : Document) : Prop :=
  doc_status d = Some NEW /\ doc_created_at d < one_day_ago.

#[global] Instance sweep_matches_dec t d : Decision (sweep_matches t d).
Proof. unfold sweep_matches. apply _. Defined.

Definition update_document_status (now : datetime) : M unit :=
  let one_day_ago := now - timedelta_days 1 in
  modify (with_documents (fmap (fun d =>
    if decide (sweep_matches (bson_date one_day_ago) d)
    then apply_set (with_status (Some PENDING) no_update) d
    else d))).

(** [find_one({"email": email})].  When several users share the e-mail
    the driver returns the first one in the natural order of the
    collection; the first one in key order stands for it here. *)
Definition get_user_by_email (email : string) : M (option User) :=
  gets (fun s =>
    head (filter (fun u => user_email u = email)
            (map_to_list (users_collection s)).*2)).

Definition get_user_by_id (user_id : string) : M (option User) :=
  gets (fun s => users_collection s !! user_id).

(** A user, a document and a clause as encoded for the store. *)
Definition bson_user (u : User) : User :=
  {| user__id := user__id u; user_id := user_id u;
     user_email := user_email u; user_password := user_password u;
     user_role := user_role u;
     user_created_at := bson_date (user_created_at u) |}.

Definition bson_document (d : Document) : Document :=
  {| doc__id := doc__id d;
     doc_title := doc_title d;
     doc_content := doc_content d;
     doc_reviewer_id := doc_reviewer_id d;
     doc_approvers := doc_approvers d;
     doc_status := doc_status d;
     doc_created_at := bson_date (doc_created_at d);
     doc_last_modified := bson_date (doc_last_modified d);
     doc_notes := doc_notes d;
     doc_last_reviewed_by := doc_last_reviewed_by d;
     doc_changes_summary := doc_changes_summary d |}.

Definition bson_clause (c : ClauseDoc) : ClauseDoc :=
  {| clause_title := clause_title c;
     clause_description := clause_description c;
     clause_domain := clause_domain c;
     clause_created_at := bson_date (clause_created_at c);
     clause_last_modified := bson_date (clause_last_modified c) |}.

(** [insert_one]: the [_id] index is unique. *)
Definition create_user (user_data : User) : M unit :=
  present <- gets (fun s => users_collection s !! user__id user_data) ;;
  match present with
  | Some _ => raise (DuplicateKeyError (user__id user_data))
  | None =>
      modify (with_users (insert (user__id user_data) (bson_user user_data)))
  end.

Definition create_document (document_data : Document) : M unit :=
  present <-
    gets (fun s => documents_collection s !! doc__id document_data) ;;
  match present with
  | Some _ => raise (DuplicateKeyError (doc__id document_data))
  | None =>
      modify (with_documents
                (insert (doc__id document_data)
                   (bson_document document_data)))
  end.

Definition get_document_by_id (doc_id : string) : M (option Document) :=
  gets (fun s => documents_collection s !! doc_id).

(** [update_data["last_modified"] = datetime.now()] and then
    [update_one({"_id": doc_id}, {"$set": update_data})]. *)
Definition update_document (now : datetime) (doc_id : string)
    (update_data : UpdateData) : M unit :=
  let update_data := with_last_modified now update_data in
  modify (with_documents (alter (apply_set update_data) doc_id)).

(** [find({"approvers": user_id})] matches an array that holds the id. *)
Definition approvers_match (user_id : string) (d : Document) : Prop :=
  match doc_approvers d with
  | Some l => user_id ∈ l
  | None => False
  end.

#[global] Instance approvers_match_dec u d : Decision (approvers_match u d).
Proof. unfold approvers_match. destruct (doc_approvers d); apply _. Defined.

Definition get_documents_for_user (user_id role : string)
    : M (list Document) :=
  if decide (role = "reviewer")
  then gets (fun s =>
         filter (fun d => doc_reviewer_id d = user_id)
           (map_to_list (documents_collection s)).*2)
  else gets (fun s =>
         filter (approvers_match user_id)
           (map_to_list (documents_collection s)).*2).

Definition get_clauses (domain : option string)
    : M (list (string * ClauseDoc)) :=
  gets (fun s =>
    match domain with
    | Some (String c dom) =>
        filter (fun kv => clause_domain kv.2 = String c dom)
          (map_to_list (clauses_collection s))
    | _ => map_to_list (clauses_collection s)
    end).

(** [new_id] is the [ObjectId] the driver generates for the insert;
    [utcnow] and [utcnow'] are the two successive clock readings. *)
Definition create_clause (utcnow utcnow' : datetime) (new_id : string)
    (title description domain : string) : M unit :=
  let clause_data :=
    {| clause_title := title; clause_description := description;
       clause_domain := domain; clause_created_at := utcnow;
       clause_last_modified := utcnow' |} in
  present <- gets (fun s => clauses_collection s !! new_id) ;;
  match present with
  | Some _ => raise (DuplicateKeyError new_id)
  | None => modify (with_clauses (insert new_id (bson_clause clause_data)))
  end.

End database.

(** ** What the handlers import from outside [src/] *)

(** [app/auth.py] is not part of the sources at hand: its functions are
    taken as parameters. *)
Record Auth := {
  verify_password : string -> string -> bool;
  get_password_hash : string -> string;
  create_access_token : string -> string -> string -> Z -> string;
  ACCESS_TOKEN_EXPIRE_MINUTES : Z
}.

Inductive UserRole := REVIEWER | APPROVER.

Definition role_value (r : UserRole) : string :=
  match r with
  | REVIEWER => "reviewer"
  | APPROVER => "approver"
  end.

(** The request body of [POST /users/] (the [User] model). *)
Record UserIn := {
  in_id : string;
  in_email : string;
  in_password : string;
  in_role : UserRole;
  in_created_at : datetime
}.

Record EmailRequest := {
  req_document_id : string;
  req_recipient_email : string;
  req_subject : string;
  req_message : string
}.

(** The outcome of an external call: [inl msg] when it raises. *)
Definition outcome (A : Type) : Type := string + A.

Definition call {A} (o : outcome A) : M A :=
  match o with
  | inl msg => raise (ExternalError msg)
  | inr a => ret a
  end.

(** [x not in l] and [for x in l], where [l] may be null in the store. *)
Definition not_in (x : string) (l : option (list string)) : M bool :=
  match l with
  | Some l => ret (bool_decide (x ∉ l))
  | None => raise (TypeError "argument of type 'NoneType' is not iterable")
  end.

Definition iterate (l : option (list string)) : M (list string) :=
  match l with
  | Some l => ret l
  | None => raise (TypeError "'NoneType' object is not iterable")
  end.

(** Truth value of an optional string. *)
Definition truthy (s : option string) : bool :=
  match s with
  | Some (String _ _) => true
  | _ => false
  end.

(** ** HTTP handlers ([app/main.py]) *)

Module main.
Import database.

Record TokenResponse := {
  access_token : string;
  token_type : string
}.

Definition login (auth : Auth) (username password : string)
    : M TokenResponse :=
  let unauthorized :=
    HTTPException 401 (Text "Incorrect username or password")
      [("WWW-Authenticate", "Bearer")] in
  user <- get_user_by_email username ;;
  match user with
  | None => raise unauthorized
  | Some user =>
      if negb (verify_password auth password (user_password user))
      then raise unauthorized
      else
        let access_token :=
          create_access_token auth (user__id user) (user_email user)
            (user_role user) (ACCESS_TOKEN_EXPIRE_MINUTES auth) in
        ret {| access_token := access_token; token_type := "bearer" |}
  end.

(** [uuid4] is the identifier [uuid.uuid4()] draws. *)
Definition create_new_user (auth : Auth) (uuid4 : string) (user : UserIn)
    : M string :=
  let hashed_password := get_password_hash auth (in_password user) in
  let user_dict :=
    {| user__id := uuid4; user_id := in_id user;
       user_email := in_email user; user_password := hashed_password;
       user_role := role_value (in_role user);
       user_created_at := in_created_at user |} in
  create_user user_dict ;;;
  ret "User created successfully".

Definition get_my_documents (status : option DocumentStatus)
    (current_user : CurrentUser) : M (list Document) :=
  documents <-
    get_documents_for_user (cu__id current_user) (cu_role current_user) ;;
  let documents := encode_content <$> documents in
  match status with
  | Some st =>
      ret (filter (fun doc => doc_status doc = Some st) documents)
  | None => ret documents
  end.

(** The loop that verifies every submitted id. *)
Definition check_approver (approver_id : string) : M unit :=
  approver <- get_user_by_id approver_id ;;
  match approver with
  | Some a =>
      if decide (user_role a ≠ "approver")
      then raise (HTTPException 400
                    (Text ("Invalid approver ID: " ++ approver_id)) [])
      else ret tt
  | None =>
      raise (HTTPException 400
               (Text ("Invalid approver ID: " ++ approver_id)) [])
  end.

Definition add_approvers (now : datetime) (document_id : string)
    (approver_ids : list string) (current_user : CurrentUser) : M string :=
  document <- get_document_by_id document_id ;;
  match document with
  | None => raise (HTTPException 404 (Text "Document not found") [])
  | Some document =>
      if decide (cu_role current_user ≠ "reviewer"
                 \/ cu__id current_user ≠ doc_reviewer_id document)
      then raise (HTTPException 403
                    (Text "Only the assigned reviewer can add approvers") [])
      else
        for_each approver_ids check_approver ;;;
        update_document now document_id
          (with_approvers (Some approver_ids) no_update) ;;;
        ret "Approvers added successfully"
  end.

Definition get_document (now : datetime) (document_id : string)
    (current_user : CurrentUser) : M Document :=
  document <- get_document_by_id document_id ;;
  match document with
  | None => raise (HTTPException 404 (Text "Document not found") [])
  | Some document =>
      denied <-
        (if decide (cu__id current_user ≠ doc_reviewer_id document)
         then not_in (cu__id current_user) (doc_approvers document)
         else ret false) ;;
      if denied : bool
      then raise (HTTPException 403
                    (Text "Not authorized to access this document") [])
      else
        let document := encode_content document in
        (if decide (doc_status document = Some NEW
                    \/ doc_status document = Some PENDING)
         then update_document now document_id
                (with_status (Some IN_PROGRESS) no_update)
         else ret tt) ;;;
        ret document
  end.

(** [approver = get_user_by_id(approver_id)] and then
    [approver['email']] inside the notification message. *)
Definition notify_approver (approver_id : string) : M unit :=
  approver <- get_user_by_id approver_id ;;
  match approver with
  | Some _ => ret tt
  | None => raise (TypeError "'NoneType' object is not subscriptable")
  end.

(** [update.dict(exclude_unset=True)] *)
Definition dict_exclude_unset (update : DocumentUpdate) : UpdateData :=
  {| set_content := option_map (option_map CStr) (upd_content update);
     set_approvers := upd_approvers update;
     set_status := upd_status update;
     set_notes := upd_notes update;
     set_changes_summary := upd_changes_summary update;
     set_last_reviewed_by := None;
     set_last_modified := None |}.

Definition update_document_status (now : datetime) (document_id : string)
    (update : DocumentUpdate) (current_user : CurrentUser) : M string :=
  document <- get_document_by_id document_id ;;
  match document with
  | None => raise (HTTPException 404 (Text "Document not found") [])
  | Some document =>
      update_data <-
        (if decide (cu_role current_user = "reviewer")
         then
           if decide (cu__id current_user ≠ doc_reviewer_id document)
           then raise (HTTPException 403
                         (Text "Not authorized to update this document") [])
           else if decide (field_value (upd_status update)
                           = Some CHANGES_MADE)
           then
             let update_data :=
               with_notes (field_value (upd_notes update))
                 (with_changes_summary
                    (field_value (upd_changes_summary update))
                    (with_status (Some CHANGES_MADE) no_update)) in
             approvers <- iterate (doc_approvers document) ;;
             for_each approvers notify_approver ;;;
             ret update_data
           else ret (dict_exclude_unset update)
         else
           denied <-
             not_in (cu__id current_user) (doc_approvers document) ;;
           if denied : bool
           then raise (HTTPException 403
                         (Text "Not authorized to update this document") [])
           else if decide (field_value (upd_status update) = Some APPROVED)
           then
             ret (with_notes (field_value (upd_notes update))
                    (with_status (field_value (upd_status update))
                       no_update))
           else
             let update_data :=
               with_last_reviewed_by (Some (cu__id current_user))
                 (with_notes (field_value (upd_notes update))
                    (with_status (Some IN_PROGRESS) no_update)) in
             if truthy (field_value (upd_content update))
             then ret (with_content
                         (option_map CStr (field_value (upd_content update)))
                         update_data)
             else ret update_data) ;;
      let update_data :=
        match set_status update_data with
        | None => with_status (doc_status document) update_data
        | Some _ => update_data
        end in
      update_document now document_id update_data ;;;
      ret "Document updated successfully"
  end.

Definition get_user_by_email_endpoint (email : string) : M User :=
  user <- get_user_by_email email ;;
  match user with
  | None => raise (HTTPException 404 (Text "User not found") [])
  | Some user => ret user
  end.

(** [await] applied to the plain value [get_document_by_id] returns. *)
Definition await_value (document : option Document)
    : M (option Document) :=
  match document with
  | Some _ =>
      raise (TypeError "object dict can't be used in 'await' expression")
  | None =>
      raise (TypeError
               "object NoneType can't be used in 'await' expression")
  end.

(** [smtp] is the outcome of logging in to the mail server and sending
    the message built from the request and the document. *)
Definition send_email (smtp : EmailRequest -> Document -> outcome unit)
    (request : EmailRequest) : M string :=
  try_except
    (fetched <- get_document_by_id (req_document_id request) ;;
     document <- await_value fetched ;;
     match document with
     | None => raise (HTTPException 404 (Text "Document not found") [])
     | Some document =>
         call (smtp request document) ;;;
         ret "Email sent successfully"
     end)
    (fun e => raise (HTTPException 500 (StrOf e) [])).

Definition get_user_by_id_endpoint (user_id : string) : M User :=
  user <- get_user_by_id user_id ;;
  match user with
  | None => raise (HTTPException 404 (Text "User not found") [])
  | Some user => ret user
  end.

Definition health_check : M (string * string) := ret ("status", "ok").

End main.

(** ** Clause handlers ([app/clauses.py]) *)

Module clauses.

Record Clause := {
  title : string;
  description : string;
  domain : string
}.

Record ClauseInDB := {
  id : string;
  in_db_title : string;
  in_db_description : string;
  in_db_domain : string;
  created_at : datetime;
  last_modified : datetime
}.

Definition in_db (key : string) (c : ClauseDoc) : ClauseInDB :=
  {| id := key; in_db_title := clause_title c;
     in_db_description := clause_description c;
     in_db_domain := clause_domain c;
     created_at := clause_created_at c;
     last_modified := clause_last_modified c |}.

Section with_bson.

(** [bson.ObjectId(s)]: the key of the identifier [s] denotes, or
    [None] when the constructor raises [InvalidId]. *)
Variable object_id : string -> option string.

Definition ObjectId (s : string) : M string :=
  match object_id s with
  | Some key => ret key
  | None => raise (InvalidId s)
  end.

(** The handler every route of this router ends with:
    [except Exception as e: raise HTTPException(status_code=500,
    detail=str(e))]. *)
Definition internal_error {A} (e : exn) : M A :=
  raise (HTTPException 500 (StrOf e) []).

(** [db.clauses.find({"domain": domain} if domain else {})] *)
Definition find (domain : option string) : M (list (string * ClauseDoc)) :=
  gets (fun s =>
    match domain with
    | Some (String c dom) =>
        filter (fun kv => clause_domain kv.2 = String c dom)
          (map_to_list (clauses_collection s))
    | _ => map_to_list (clauses_collection s)
    end).

Definition get_clauses (domain : option string) : M (list ClauseInDB) :=
  try_except
    (found <- find domain ;;
     ret ((fun kv => in_db kv.1 kv.2) <$> found))
    internal_error.

(** [db.clauses.insert_one(clause_data)], with the [inserted_id] the
    driver generates.  The store receives the encoded clause; the
    dictionary of the handler keeps its own values. *)
Definition insert_one (new_id : string) (clause_data : ClauseDoc) : M string :=
  present <- gets (fun s => clauses_collection s !! new_id) ;;
  match present with
  | Some _ => raise (DuplicateKeyError new_id)
  | None =>
      modify (with_clauses
                (insert new_id (database.bson_clause clause_data))) ;;;
      ret new_id
  end.

(** [utcnow] and [utcnow'] are the two successive clock readings. *)
Definition create_clause (utcnow utcnow' : datetime) (new_id : string)
    (clause : Clause) : M ClauseInDB :=
  try_except
    (let clause_data :=
       {| clause_title := title clause;
          clause_description := description clause;
          clause_domain := domain clause;
          clause_created_at := utcnow;
          clause_last_modified := utcnow' |} in
     inserted_id <- insert_one new_id clause_data ;;
     ret {| id := inserted_id; in_db_title := title clause;
            in_db_description := description clause;
            in_db_domain := domain clause;
            created_at := clause_created_at clause_data;
            last_modified := clause_last_modified clause_data |})
    internal_error.

Definition find_one (key : string) : M (option ClauseDoc) :=
  gets (fun s => clauses_collection s !! key).

(** [{"$set": update_data}] on a stored clause. *)
Definition set_clause (clause : Clause) (utcnow : datetime)
    (c : ClauseDoc) : ClauseDoc :=
  {| clause_title := title clause;
     clause_description := description clause;
     clause_domain := domain clause;
     clause_created_at := clause_created_at c;
     clause_last_modified := bson_date utcnow |}.

Definition update_clause (utcnow : datetime) (clause_id : string)
    (clause : Clause) : M ClauseInDB :=
  try_except
    (key <- ObjectId clause_id ;;
     existing_clause <- find_one key ;;
     match existing_clause with
     | None => raise (HTTPException 404 (Text "Clause not found") [])
     | Some _ =>
         key <- ObjectId clause_id ;;
         modify (with_clauses (alter (set_clause clause utcnow) key)) ;;;
         key <- ObjectId clause_id ;;
         updated_clause <- find_one key ;;
         match updated_clause with
         | Some c => ret (in_db key c)
         | None =>
             raise (TypeError "'NoneType' object is not subscriptable")
         end
     end)
    internal_error.

(** [delete_one] and its [deleted_count]. *)
Definition delete_one (key : string) : M nat :=
  present <- find_one key ;;
  match present with
  | Some _ => modify (with_clauses (delete key)) ;;; ret 1%nat
  | None => ret 0%nat
  end.

Definition delete_clause (clause_id : string) : M string :=
  try_except
    (key <- ObjectId clause_id ;;
     existing_clause <- find_one key ;;
     match existing_clause with
     | None => raise (HTTPException 404 (Text "Clause not found") [])
     | Some _ =>
         key <- ObjectId clause_id ;;
         deleted_count <- delete_one key ;;
         if decide (deleted_count = 0%nat)
         then raise (HTTPException 500
                       (Text "Failed to delete clause") [])
         else ret "Clause deleted successfully"
     end)
    internal_error.

End with_bson.

(** A sample reading of an identifier given as text, for the closed
    examples: twenty-four characters that [bytes.fromhex] accepts, pairs
    of hexadecimal digits with blanks between pairs skipped, kept as the
    digits in lower case. *)
Definition is_hex_digit (c : ascii) : bool :=
  let n := nat_of_ascii c in
  (Nat.leb 48 n && Nat.leb n 57) || (Nat.leb 65 n && Nat.leb n 70)
  || (Nat.leb 97 n && Nat.leb n 102).

Definition is_space (c : ascii) : bool :=
  let n := nat_of_ascii c in
  Nat.eqb n 32 || (Nat.leb 9 n && Nat.leb n 13).

Definition lower (c : ascii) : ascii :=
  let n := nat_of_ascii c in
  if Nat.leb 65 n && Nat.leb n 90 then ascii_of_nat (n + 32) else c.

Fixpoint fromhex (cs : list ascii) : option (list ascii) :=
  match cs with
  | [] => Some []
  | c :: cs' =>
      if is_space c then fromhex cs'
      else
        match cs' with
        | c' :: cs'' =>
            if is_hex_digit c && is_hex_digit c'
            then match fromhex cs'' with
                 | Some digits => Some (lower c :: lower c' :: digits)
                 | None => None
                 end
            else None
        | [] => None
        end
  end.

Definition hex_object_id (s : string) : option string :=
  let cs := String.list_ascii_of_string s in
  if Nat.eqb (length cs) 24
  then String.string_of_list_ascii <$> fromhex cs
  else None.

End clauses.

(** ** Chat handlers ([app/ai_chat.py]) *)

Module ai_chat.
Import database.

Definition LF : string := String "010"%char EmptyString.

(** [s.replace(old, new)] for a non-empty [old]; [skip] counts the
    characters of a match still to be dropped. *)
Fixpoint replace_from (old new : string) (skip : nat) (s : string)
    : string :=
  match s with
  | EmptyString => EmptyString
  | String c s' =>
      match skip with
      | S k => replace_from old new k s'
      | O =>
          if String.prefix old s
          then new ++ replace_from old new (String.length old - 1) s'
          else String c (replace_from old new 0 s')
      end
  end.

Definition replace (old new s : string) : string :=
  replace_from old new 0 s.

Record ChatQuery := {
  query : string;
  document_id : string;
  filetype : string;
  top_k : Z
}.

Section with_services.

(** Embeddings and search hits are the vector store's own values. *)
Context {Embedding Hit : Type}.

(** The remote services, each call with its outcome.  A completion
    stream is the chunks received ([None] for a chunk without text)
    and the error that ends it early, if any. *)
Record Services := {
  QdrantClient : outcome unit;
  embed_text : string -> outcome Embedding;
  search : string -> Embedding -> Z -> outcome (list Hit);
  completion : list Hit -> string -> outcome string;
  completion_stream :
    list Hit -> string -> outcome (list (option string) * option string)
}.

Variable svc : Services.

Definition sse (text : string) : string := "data: " ++ text ++ LF ++ LF.

(** The generator, as the list of events it yields. *)
Definition stream_llm_response (query : string)
    (search_results : list Hit) : list string :=
  match completion_stream svc search_results query with
  | inl msg => [sse ("Error: " ++ msg)]
  | inr (chunks, failure) =>
      (sse <$> omap (fun c => c) chunks)
      ++ match failure with
         | Some msg => [sse ("Error: " ++ msg)]
         | None => []
         end
  end.

Definition llm_query (data : list Hit) (query filetype : string)
    : M string :=
  try_except
    (call (completion svc data query))
    (fun e => raise (HTTPException 500 (StrOf e) [])).

Definition generalized_query (query document_id filetype : string)
    (top_k : Z) : M (string * list Hit) :=
  try_except
    (call (QdrantClient svc) ;;;
     document <- get_document_by_id document_id ;;
     match document with
     | None => raise (HTTPException 404 (Text "Document not found") [])
     | Some document =>
         let filename := replace ".sfdt" ".docx" (doc_title document) in
         query_embedding <- call (embed_text svc query) ;;
         results <- call (search svc filename query_embedding top_k) ;;
         ret (query, results)
     end)
    (fun e => raise (HTTPException 500 (StrOf e) [])).

Definition chat_endpoint (chat_query : ChatQuery) : M string :=
  try_except
    (vector_results <-
       generalized_query (query chat_query) (document_id chat_query)
         (filetype chat_query) (top_k chat_query) ;;
     llm_response <-
       llm_query vector_results.2 (query chat_query)
         (filetype chat_query) ;;
     ret llm_response)
    (fun e => raise (HTTPException 500 (StrOf e) [])).

Definition chat_stream_endpoint (chat_query : ChatQuery)
    : M (list string) :=
  try_except
    (vector_results <-
       generalized_query (query chat_query) (document_id chat_query)
         (filetype chat_query) (top_k chat_query) ;;
     ret (stream_llm_response (query chat_query) vector_results.2))
    (fun e => raise (HTTPException 500 (StrOf e) [])).

End with_services.

Arguments Services : clear implicits.

End ai_chat.

(** ** The application: every route of the three routers *)

Section application.

Context {Embedding Hit : Type}.

(** Everything a request meets that is not the store. *)
Record Env := {
  auth : Auth;
  object_id : string -> option string;
  smtp : EmailRequest -> Document -> outcome unit;
  services : ai_chat.Services Embedding Hit
}.

(** A request that reached its handler: the route, the parsed
    parameters, the authenticated caller where the route asks for one,
    and the identifiers and the second clock reading drawn while it is
    served. *)
Inductive Request :=
| POST_token (username password : string)
| POST_users (uuid4 : string) (user : UserIn)
| GET_documents (status : option DocumentStatus) (current_user : CurrentUser)
| POST_document_approvers (document_id : string)
    (approver_ids : list string) (current_user : CurrentUser)
| GET_document (document_id : string) (current_user : CurrentUser)
| PUT_document (document_id : string) (update : DocumentUpdate)
    (current_user : CurrentUser)
| GET_users_email (email : string)
| POST_send_email (request : EmailRequest)
| GET_user (user_id : string)
| GET_root
| GET_clauses (domain : option string)
| POST_clauses (new_id : string) (utcnow' : datetime)
    (clause : clauses.Clause)
| PUT_clause (clause_id : string) (clause : clauses.Clause)
| DELETE_clause (clause_id : string)
| POST_chat (chat_query : ai_chat.ChatQuery)
| POST_chat_stream (chat_query : ai_chat.ChatQuery).

(** The status code of the response and the store left behind. *)
Definition respond {A} (m : M A) (s : Store) : Z * Store :=
  (http_status (m s).1, (m s).2).

Definition serve (env : Env) (now : datetime) (req : Request)
    : Store -> Z * Store :=
  match req with
  | POST_token username password =>
      respond (main.login (auth env) username password)
  | POST_users uuid4 user =>
      respond (main.create_new_user (auth env) uuid4 user)
  | GET_documents status current_user =>
      respond (main.get_my_documents status current_user)
  | POST_document_approvers document_id approver_ids current_user =>
      respond (main.add_approvers now document_id approver_ids current_user)
  | GET_document document_id current_user =>
      respond (main.get_document now document_id current_user)
  | PUT_document document_id update current_user =>
      respond (main.update_document_status now document_id update
                 current_user)
  | GET_users_email email =>
      respond (main.get_user_by_email_endpoint email)
  | POST_send_email request =>
      respond (main.send_email (smtp env) request)
  | GET_user user_id =>
      respond (main.get_user_by_id_endpoint user_id)
  | GET_root => respond main.health_check
  | GET_clauses domain => respond (clauses.get_clauses domain)
  | POST_clauses new_id utcnow' clause =>
      respond (clauses.create_clause now utcnow' new_id clause)
  | PUT_clause clause_id clause =>
      respond (clauses.update_clause (object_id env) now clause_id clause)
  | DELETE_clause clause_id =>
      respond (clauses.delete_clause (object_id env) clause_id)
  | POST_chat chat_query =>
      respond (ai_chat.chat_endpoint (services env) chat_query)
  | POST_chat_stream chat_query =>
      respond (ai_chat.chat_stream_endpoint (services env) chat_query)
  end.

End application.

Arguments Env : clear implicits.

(** ** Vocabulary of the statements *)

(** The read check of [get_document]: the caller is the document's
    reviewer or is listed among its approvers. *)
Definition authorized_reader (u : CurrentUser) (d : Document) : Prop :=
  cu__id u = doc_reviewer_id d
  \/ exists l, doc_approvers d = Some l /\ cu__id u ∈ l.

(** The stored status of a document, [None] when there is no such document. *)
Definition stored_status (s : Store) (document_id : string)
    : option (option DocumentStatus) :=
  doc_status <$> documents_collection s !! document_id.

(** The id belongs to an existing user whose role is "approver". *)
Definition valid_approver (s : Store) (approver_id : string) : Prop :=
  exists a, users_collection s !! approver_id = Some a
            /\ user_role a = "approver".

#[global] Instance valid_approver_dec s a : Decision (valid_approver s a).
Proof.
  unfold valid_approver.
  destruct (users_collection s !! a) as [usr|] eqn:Hu.
  - destruct (decide (user_role usr = "approver")) as [Hr|Hr].
    + left. by exists usr.
    + right. intros (usr' & Heq & Hr'). congruence.
  - right. intros (usr' & Heq & _). discriminate.
Defined.

(** [d] with its status replaced, every other field kept. *)
Definition set_doc_status (st : DocumentStatus) (d : Document) : Document :=
  {| doc__id := doc__id d;
     doc_title := doc_title d;
     doc_content := doc_content d;
     doc_reviewer_id := doc_reviewer_id d;
     doc_approvers := doc_approvers d;
     doc_status := Some st;
     doc_created_at := doc_created_at d;
     doc_last_modified := doc_last_modified d;
     doc_notes := doc_notes d;
     doc_last_reviewed_by := doc_last_reviewed_by d;
     doc_changes_summary := doc_changes_summary d |}.

(** The status an exception turns into. *)
Definition exn_status (e : exn) : Z := http_status (inl e : exn + unit).

(** [raises_only P m]: whatever the store, [m] returns or raises an
    exception satisfying [P]. *)
Definition raises_only {A} (P : exn -> Prop) (m : M A) : Prop :=
  forall s, match (m s).1 with
            | inl e => P e
            | inr _ => True
            end.

(** The exception answers with one of the listed status codes. *)
Definition status_among (codes : list Z) (e : exn) : Prop :=
  exn_status e ∈ codes.

(** [stamped now s s']: the two stores hold the same documents, and each
    document of [s'] is the one of [s] or carries [now], as the store
    keeps it, as its [last_modified]. *)
Definition stamped (now : datetime) (s s' : Store) : Prop :=
  forall document_id,
    match documents_collection s !! document_id,
          documents_collection s' !! document_id with
    | Some d, Some d' => d' = d \/ doc_last_modified d' = bson_date now
    | None, None => True
    | _, _ => False
    end.

Definition writes_stamped {A} (now : datetime) (m : M A) : Prop :=
  forall s, stamped now s (m s).2.

(** [keeps R m]: whatever the store, running [m] leaves a store related
    by [R] to the one it started from. *)
Definition keeps {A} (R : Store -> Store -> Prop) (m : M A) : Prop :=
  forall s, R s (m s).2.

(** The two stores hold documents under the same ids, and each document
    has kept its [_id], title, reviewer and creation time. *)
Definition same_identity (s s' : Store) : Prop :=
  forall document_id,
    match documents_collection s !! document_id,
          documents_collection s' !! document_id with
    | Some d, Some d' =>
        doc__id d' = doc__id d /\ doc_title d' = doc_title d
        /\ doc_reviewer_id d' = doc_reviewer_id d
        /\ doc_created_at d' = doc_created_at d
    | None, None => True
    | _, _ => False
    end.

Definition same_users (s s' : Store) : Prop :=
  users_collection s' = users_collection s.

Definition same_documents (s s' : Store) : Prop :=
  documents_collection s' = documents_collection s.

Definition same_clauses (s s' : Store) : Prop :=
  clauses_collection s' = clauses_collection s.

Definition same_store (s s' : Store) : Prop := s' = s.

(** The collections a route may write: everything else it leaves as it
    found it. *)
Definition route_frame (req : Request)
    (s s' : Store) : Prop :=
  match req with
  | POST_users _ _ => same_documents s s' /\ same_clauses s s'
  | POST_document_approvers _ _ _ | GET_document _ _ | PUT_document _ _ _ =>
      same_users s s' /\ same_clauses s s'
  | POST_clauses _ _ _ | PUT_clause _ _ | DELETE_clause _ =>
      same_users s s' /\ same_documents s s'
  | _ => same_store s s'
  end.


(** The record a registration stores: the request with the drawn [_id],
    the hash in place of the password and the role as its string. *)
Definition registered_user (auth : Auth) (uuid4 : string) (user : UserIn)
    : User :=
  {| user__id := uuid4; user_id := in_id user;
     user_email := in_email user;
     user_password := get_password_hash auth (in_password user);
     user_role := role_value (in_role user);
     user_created_at := bson_date (in_created_at user) |}.

(** No stored user has this e-mail. *)
Definition email_free (s : Store) (email : string) : Prop :=
  forall k other, users_collection s !! k = Some other ->
                  user_email other ≠ email.

(** The text [old] occurs somewhere in [s]. *)
Fixpoint occurs (old s : string) : Prop :=
  match s with
  | EmptyString => String.prefix old EmptyString = true
  | String _ s' => String.prefix old s = true \/ occurs old s'
  end.

(** ** Sample data for the closed examples *)

Definition sample_user (key role : string) : User :=
  {| user__id := key; user_id := key; user_email := key ++ "@example.org";
     user_password := "x"; user_role := role; user_created_at := 0 |}.

Definition sample_doc (st : DocumentStatus) (approvers : list string)
    : Document :=
  {| doc__id := "d1"; doc_title := "nda.sfdt"; doc_content := None;
     doc_reviewer_id := "r1"; doc_approvers := Some approvers;
     doc_status := Some st; doc_created_at := 0; doc_last_modified := 0;
     doc_notes := None; doc_last_reviewed_by := None;
     doc_changes_summary := None |}.

(** Two reviewers, one approver, one document assigned to reviewer r1. *)
Definition sample_store (st : DocumentStatus) (approvers : list string)
    : Store :=
  {| users_collection :=
       <["r1" := sample_user "r1" "reviewer"]>
         (<["r2" := sample_user "r2" "reviewer"]>
            (<["a1" := sample_user "a1" "approver"]> ∅));
     documents_collection := <["d1" := sample_doc st approvers]> ∅;
     clauses_collection := ∅ |}.

Definition r1 : CurrentUser := {| cu__id := "r1"; cu_role := "reviewer" |}.
Definition r2 : CurrentUser := {| cu__id := "r2"; cu_role := "reviewer" |}.
Definition a1 : CurrentUser := {| cu__id := "a1"; cu_role := "approver" |}.

Definition sample_update (st : option DocumentStatus) (notes : string)
    : DocumentUpdate :=
  {| upd_content := None; upd_approvers := None; upd_status := Some st;
     upd_notes := Some (Some notes); upd_changes_summary := None |}.

(** An environment in which every remote call succeeds. *)
Definition sample_auth : Auth :=
  {| verify_password := fun plain hashed => String.eqb plain hashed;
     get_password_hash := fun plain => plain;
     create_access_token := fun sub email role minutes => sub;
     ACCESS_TOKEN_EXPIRE_MINUTES := 30 |}.

Definition sample_services : ai_chat.Services unit unit :=
  {| ai_chat.QdrantClient := inr tt;
     ai_chat.embed_text := fun _ => inr tt;
     ai_chat.search := fun _ _ _ => inr [];
     ai_chat.completion := fun _ _ => inr "answer";
     ai_chat.completion_stream := fun _ _ => inr ([Some "answer"], None) |}.

Definition sample_env : Env unit unit :=
  {| auth := sample_auth;
     object_id := clauses.hex_object_id;
     smtp := fun _ _ => inr tt;
     services := sample_services |}.

Definition sample_clause : ClauseDoc :=
  {| clause_title := "Confidentiality"; clause_description := "text";
     clause_domain := "nda"; clause_created_at := 1000;
     clause_last_modified := 1000 |}.

Definition sample_new_clause : clauses.Clause :=
  {| clauses.title := "Termination"; clauses.description := "notice";
     clauses.domain := "employment" |}.

(** The sample store with one clause in it. *)
Definition sample_clause_store : Store :=
  with_clauses (insert "507f1f77bcf86cd799439011" sample_clause)
    (sample_store NEW []).

Definition sample_user_in : UserIn :=
  {| in_id := "u9"; in_email := "new@example.org"; in_password := "secret";
     in_role := APPROVER; in_created_at := 3250 |}.

Definition sample_email_request : EmailRequest :=
  {| req_document_id := "d1"; req_recipient_email := "to@example.org";
     req_subject := "contract"; req_message := "attached" |}.

Definition sample_chat_query : ai_chat.ChatQuery :=
  {| ai_chat.query := "term?"; ai_chat.document_id := "d1";
     ai_chat.filetype := "contract"; ai_chat.top_k := 3 |}.

(** Services whose completion stream breaks after its first chunk. *)
Definition broken_stream_services : ai_chat.Services unit unit :=
  {| ai_chat.QdrantClient := inr tt;
     ai_chat.embed_text := fun _ => inr tt;
     ai_chat.search := fun _ _ _ => inr [tt];
     ai_chat.completion := fun _ _ => inl "timeout";
     ai_chat.completion_stream :=
       fun _ _ => inr ([Some "The "; None], Some "timeout") |}.

(** * Properties *)

(** ** Encoding *)

Example b64encode_Man :
  b64encode [Byte.x4d; Byte.x61; Byte.x6e] = "TWFu"
  /\ b64encode [Byte.x4d; Byte.x61] = "TWE="
  /\ b64encode [Byte.x4d] = "TQ==".
Proof. repeat split; reflexivity. Qed.

(** ** The store accessors *)

Ltac run :=
  unfold bind, ret, raise, gets, modify, try_except, call,
    database.get_document_by_id, database.get_user_by_id,
    database.update_document; simpl.

Lemma encode_content_status d : doc_status (encode_content d) = doc_status d.
Proof.
  unfold encode_content.
  destruct (doc_content d) as [[[|b bs]|]|]; reflexivity.
Qed.

Lemma update_document_lookup now doc_id u s :
  documents_collection (database.update_document now doc_id u s).2 !! doc_id
  = apply_set (with_last_modified now u)
      <$> documents_collection s !! doc_id.
Proof. run. by rewrite lookup_alter_eq. Qed.

Lemma update_document_lookup_ne now doc_id u s other :
  doc_id ≠ other ->
  documents_collection (database.update_document now doc_id u s).2 !! other
  = documents_collection s !! other.
Proof. intros Hne. run. by rewrite lookup_alter_ne. Qed.

(** What an authorized read does, in one equation. *)
Lemma get_document_authorized now s document_id d u :
  documents_collection s !! document_id = Some d ->
  authorized_reader u d ->
  main.get_document now document_id u s
  = (inr (encode_content d),
     if decide (doc_status d = Some NEW \/ doc_status d = Some PENDING)
     then (database.update_document now document_id
             (with_status (Some IN_PROGRESS) no_update) s).2
     else s).
Proof.
  intros Hd Hauth. unfold main.get_document. run. rewrite Hd.
  assert (Hdenied :
    (if decide (cu__id u ≠ doc_reviewer_id d)
     then not_in (cu__id u) (doc_approvers d) else (fun s => (inr false, s))) s
    = (inr false, s)).
  { case_decide as Hne; [|done].
    destruct Hauth as [Heq | (l & Hl & Hin)]; [done|].
    rewrite Hl. unfold not_in, ret. f_equal. f_equal.
    apply bool_decide_eq_false. tauto. }
  rewrite Hdenied. clear Hdenied. rewrite encode_content_status.
  case_decide; reflexivity.
Qed.

(** The store after an authorized read, and the document it holds. *)
Lemma get_document_after now s document_id d u :
  documents_collection s !! document_id = Some d ->
  authorized_reader u d ->
  exists d1,
    documents_collection (main.get_document now document_id u s).2
      !! document_id = Some d1
    /\ authorized_reader u d1
    /\ doc_status d1
       = (if decide (doc_status d = Some NEW \/ doc_status d = Some PENDING)
          then Some IN_PROGRESS else doc_status d).
Proof.
  intros Hd Hauth. rewrite (get_document_authorized _ _ _ _ _ Hd Hauth).
  cbn [snd]. case_decide as Hst.
  - eexists. rewrite update_document_lookup, Hd. simpl.
    split; [reflexivity|]. split; [exact Hauth | reflexivity].
  - exists d. by rewrite Hd.
Qed.

(** ** Reading a document *)

(** C1: an authorized read of a NEW or PENDING document leaves
    IN_PROGRESS in the store; an authorized read of a document in any
    other status leaves the store as it was; and a second read changes
    nothing after the first, so the transition happens once. *)
Theorem get_document_transition_once now now' s document_id d u :
  documents_collection s !! document_id = Some d ->
  authorized_reader u d ->
  let s1 := (main.get_document now document_id u s).2 in
  let s2 := (main.get_document now' document_id u s1).2 in
  (doc_status d = Some NEW \/ doc_status d = Some PENDING ->
   stored_status s1 document_id = Some (Some IN_PROGRESS))
  /\ (~ (doc_status d = Some NEW \/ doc_status d = Some PENDING) ->
      s1 = s /\ stored_status s1 document_id = Some (doc_status d))
  /\ s2 = s1.
Proof.
  intros Hd Hauth s1 s2.
  destruct (get_document_after now s document_id d u Hd Hauth)
    as (d1 & Hd1 & Hauth1 & Hst1).
  fold s1 in Hd1. repeat split.
  - intros Hst. unfold stored_status. rewrite Hd1. simpl.
    rewrite Hst1. by rewrite decide_True.
  - subst s1. rewrite (get_document_authorized _ _ _ _ _ Hd Hauth).
    simpl. by rewrite decide_False.
  - unfold stored_status. rewrite Hd1. simpl. rewrite Hst1.
    by rewrite decide_False.
  - subst s2. rewrite (get_document_authorized _ _ _ _ _ Hd1 Hauth1).
    simpl. rewrite decide_False; [done|]. rewrite Hst1.
    case_decide as Hst; [intros [?|?]; discriminate | exact Hst].
Qed.

Lemma get_document_transition_once_witness :
  stored_status
    (main.get_document 5 "d1" a1 (sample_store NEW ["a1"])).2 "d1"
  = Some (Some IN_PROGRESS)
  /\ (main.get_document 9 "d1" a1
        (main.get_document 5 "d1" a1 (sample_store NEW ["a1"])).2).2
     = (main.get_document 5 "d1" a1 (sample_store NEW ["a1"])).2.
Proof.
  assert (Hd : documents_collection (sample_store NEW ["a1"]) !! "d1"
               = Some (sample_doc NEW ["a1"])) by reflexivity.
  assert (Hauth : authorized_reader a1 (sample_doc NEW ["a1"])).
  { right. exists ["a1"]. split; [reflexivity | apply list_elem_of_here]. }
  pose proof (get_document_transition_once 5 9 _ "d1" _ a1 Hd Hauth)
    as (Hnew & _ & Hsame).
  split; [apply Hnew; left; reflexivity | exact Hsame].
Defined.

(** C10: the body of an authorized read of a NEW or PENDING document is
    the document as fetched, with its status still NEW or PENDING, while
    the store already holds IN_PROGRESS; the next read returns
    IN_PROGRESS. *)
Theorem get_document_returns_fetched_status now now' s document_id d u :
  documents_collection s !! document_id = Some d ->
  authorized_reader u d ->
  doc_status d = Some NEW \/ doc_status d = Some PENDING ->
  let r := main.get_document now document_id u s in
  exists body body',
    r.1 = inr body
    /\ doc_status body = doc_status d
    /\ stored_status r.2 document_id = Some (Some IN_PROGRESS)
    /\ (main.get_document now' document_id u r.2).1 = inr body'
    /\ doc_status body' = Some IN_PROGRESS.
Proof.
  intros Hd Hauth Hst r.
  destruct (get_document_after now s document_id d u Hd Hauth)
    as (d1 & Hd1 & Hauth1 & Hst1).
  fold r in Hd1. rewrite decide_True in Hst1 by exact Hst.
  exists (encode_content d), (encode_content d1).
  split; [|split; [|split; [|split]]].
  - subst r. by rewrite (get_document_authorized _ _ _ _ _ Hd Hauth).
  - apply encode_content_status.
  - unfold stored_status. rewrite Hd1. simpl. by rewrite Hst1.
  - by rewrite (get_document_authorized _ _ _ _ _ Hd1 Hauth1).
  - by rewrite encode_content_status.
Qed.

Lemma get_document_returns_fetched_status_witness :
  exists body body',
    (main.get_document 5 "d1" r1 (sample_store PENDING [])).1 = inr body
    /\ doc_status body = Some PENDING
    /\ stored_status (main.get_document 5 "d1" r1 (sample_store PENDING [])).2
         "d1" = Some (Some IN_PROGRESS)
    /\ (main.get_document 9 "d1" r1
          (main.get_document 5 "d1" r1 (sample_store PENDING [])).2).1
       = inr body'
    /\ doc_status body' = Some IN_PROGRESS.
Proof.
  apply (get_document_returns_fetched_status 5 9 (sample_store PENDING [])
           "d1" (sample_doc PENDING []) r1).
  - reflexivity.
  - left. reflexivity.
  - right. reflexivity.
Defined.

(** ** Updating a document *)

(** The approver branch of [update_document_status], in one equation. *)
Lemma update_document_status_approver now s document_id d u upd l :
  documents_collection s !! document_id = Some d ->
  cu_role u ≠ "reviewer" ->
  doc_approvers d = Some l ->
  cu__id u ∈ l ->
  main.update_document_status now document_id upd u s
  = (inr "Document updated successfully",
     (database.update_document now document_id
        (if decide (field_value (upd_status upd) = Some APPROVED)
         then with_notes (field_value (upd_notes upd))
                (with_status (Some APPROVED) no_update)
         else
           let update_data :=
             with_last_reviewed_by (Some (cu__id u))
               (with_notes (field_value (upd_notes upd))
                  (with_status (Some IN_PROGRESS) no_update)) in
           if truthy (field_value (upd_content upd))
           then with_content (option_map CStr (field_value (upd_content upd)))
                  update_data
           else update_data) s).2).
Proof.
  intros Hd Hrole Hl Hin. unfold main.update_document_status. run.
  rewrite Hd. rewrite decide_False by exact Hrole.
  rewrite Hl. unfold not_in, ret.
  rewrite bool_decide_eq_false_2 by tauto.
  case_decide as Hst.
  - rewrite Hst. reflexivity.
  - destruct (truthy (field_value (upd_content upd))); reflexivity.
Qed.

(** C2: an approver listed on the document who sends status APPROVED
    leaves APPROVED in the store, whatever the status was before. *)
Theorem approver_approval_sets_approved now s document_id d u upd l :
  documents_collection s !! document_id = Some d ->
  cu_role u = "approver" ->
  doc_approvers d = Some l ->
  cu__id u ∈ l ->
  field_value (upd_status upd) = Some APPROVED ->
  let r := main.update_document_status now document_id upd u s in
  r.1 = inr "Document updated successfully"
  /\ stored_status r.2 document_id = Some (Some APPROVED).
Proof.
  intros Hd Hrole Hl Hin Hst r. subst r.
  rewrite (update_document_status_approver _ _ _ _ _ _ _ Hd) by
    (try rewrite Hrole; done).
  split; [reflexivity|]. cbn [snd]. unfold stored_status.
  rewrite update_document_lookup, Hd. rewrite decide_True by exact Hst.
  reflexivity.
Qed.

Lemma approver_approval_sets_approved_witness :
  (main.update_document_status 5 "d1" (sample_update (Some APPROVED) "ok")
     a1 (sample_store CHANGES_MADE ["a1"])).1
  = inr "Document updated successfully"
  /\ stored_status
       (main.update_document_status 5 "d1" (sample_update (Some APPROVED) "ok")
          a1 (sample_store CHANGES_MADE ["a1"])).2 "d1"
     = Some (Some APPROVED).
Proof.
  apply (approver_approval_sets_approved 5 (sample_store CHANGES_MADE ["a1"])
           "d1" (sample_doc CHANGES_MADE ["a1"]) a1
           (sample_update (Some APPROVED) "ok") ["a1"]).
  - reflexivity.
  - reflexivity.
  - reflexivity.
  - apply list_elem_of_here.
  - reflexivity.
Defined.

(** C3: an approver listed on the document who sends any status other
    than APPROVED leaves IN_PROGRESS in the store, together with the notes
    of the request and the caller's id as [last_reviewed_by]. *)
Theorem approver_rejection_returns_to_in_progress
    now s document_id d u upd l :
  documents_collection s !! document_id = Some d ->
  cu_role u = "approver" ->
  doc_approvers d = Some l ->
  cu__id u ∈ l ->
  field_value (upd_status upd) ≠ Some APPROVED ->
  let r := main.update_document_status now document_id upd u s in
  exists d',
    r.1 = inr "Document updated successfully"
    /\ documents_collection r.2 !! document_id = Some d'
    /\ doc_status d' = Some IN_PROGRESS
    /\ doc_notes d' = field_value (upd_notes upd)
    /\ doc_last_reviewed_by d' = Some (cu__id u).
Proof.
  intros Hd Hrole Hl Hin Hst r. subst r.
  rewrite (update_document_status_approver _ _ _ _ _ _ _ Hd) by
    (try rewrite Hrole; done).
  cbn [fst snd]. rewrite update_document_lookup, Hd.
  rewrite decide_False by exact Hst.
  eexists. split; [reflexivity|]. split; [reflexivity|].
  destruct (truthy (field_value (upd_content upd))); simpl; done.
Qed.

Lemma approver_rejection_returns_to_in_progress_witness :
  exists d',
    (main.update_document_status 5 "d1" (sample_update (Some CHANGES_MADE) "redo")
       a1 (sample_store CHANGES_MADE ["a1"])).1
    = inr "Document updated successfully"
    /\ documents_collection
         (main.update_document_status 5 "d1"
            (sample_update (Some CHANGES_MADE) "redo")
            a1 (sample_store CHANGES_MADE ["a1"])).2 !! "d1" = Some d'
    /\ doc_status d' = Some IN_PROGRESS
    /\ doc_notes d' = Some "redo"
    /\ doc_last_reviewed_by d' = Some "a1".
Proof.
  apply (approver_rejection_returns_to_in_progress 5
           (sample_store CHANGES_MADE ["a1"]) "d1"
           (sample_doc CHANGES_MADE ["a1"]) a1
           (sample_update (Some CHANGES_MADE) "redo") ["a1"]).
  - reflexivity.
  - reflexivity.
  - reflexivity.
  - apply list_elem_of_here.
  - discriminate.
Defined.

(** ** Assigning approvers *)

Lemma check_approver_valid s a :
  valid_approver s a -> main.check_approver a s = (inr tt, s).
Proof.
  intros (usr & Hu & Hr). unfold main.check_approver. run.
  rewrite Hu. by rewrite decide_False by (intros Hne; by apply Hne).
Qed.

Lemma check_approver_invalid s a :
  ~ valid_approver s a ->
  main.check_approver a s
  = (inl (HTTPException 400 (Text ("Invalid approver ID: " ++ a)) []), s).
Proof.
  intros Hnot. unfold main.check_approver. run.
  destruct (users_collection s !! a) as [usr|] eqn:Hu; [|reflexivity].
  case_decide as Hr; [reflexivity|].
  exfalso. apply Hnot. exists usr. split; [exact Hu|].
  by destruct (decide (user_role usr = "approver")).
Qed.

(** The verification loop never writes; it passes exactly when every id
    is valid and raises the 400 error at the first one that is not. *)
Lemma for_each_check_approver s ids :
  (for_each ids main.check_approver s).2 = s
  /\ (Forall (valid_approver s) ids ->
      (for_each ids main.check_approver s).1 = inr tt)
  /\ (Exists (fun a => ~ valid_approver s a) ids ->
      exists a, a ∈ ids /\ ~ valid_approver s a
        /\ (for_each ids main.check_approver s).1
           = inl (HTTPException 400
                    (Text ("Invalid approver ID: " ++ a)) [])).
Proof.
  induction ids as [|a ids IH]; simpl.
  - split; [reflexivity|]. split; [reflexivity|].
    intros H. by apply Exists_nil in H.
  - destruct IH as (IHs & IHok & IHbad). unfold bind.
    destruct (decide (valid_approver s a)) as [Hv|Hv].
    + rewrite (check_approver_valid _ _ Hv).
      split; [exact IHs|]. split.
      * intros Hall. apply IHok. by apply Forall_cons_1 in Hall as [_ ?].
      * intros Hex. apply Exists_cons in Hex as [Hbad|Hex]; [done|].
        destruct (IHbad Hex) as (b & Hin & Hb & Hres).
        exists b. split; [by apply list_elem_of_further|]. by split.
    + rewrite (check_approver_invalid _ _ Hv).
      split; [reflexivity|]. split.
      * intros Hall. by apply Forall_cons_1 in Hall as [? _].
      * intros _. exists a. split; [apply list_elem_of_here|]. by split.
Qed.

(** C5: when the assigned reviewer submits a list holding an id that is
    not an existing user with role "approver", the response is 400 and
    the store is exactly as before; the approvers field is written, with
    the submitted list, when every id passes, and a changed store means
    every id passed. *)
Theorem add_approvers_rejects_before_writing
    now s document_id d u approver_ids :
  documents_collection s !! document_id = Some d ->
  cu_role u = "reviewer" ->
  cu__id u = doc_reviewer_id d ->
  let r := main.add_approvers now document_id approver_ids u s in
  ((exists a, a ∈ approver_ids /\ ~ valid_approver s a) ->
   http_status r.1 = 400 /\ r.2 = s)
  /\ ((forall a, a ∈ approver_ids -> valid_approver s a) ->
      r.1 = inr "Approvers added successfully"
      /\ doc_approvers <$> documents_collection r.2 !! document_id
         = Some (Some approver_ids))
  /\ (r.2 ≠ s -> forall a, a ∈ approver_ids -> valid_approver s a).
Proof.
  intros Hd Hrole Hid r.
  assert (Hr : r = match for_each approver_ids main.check_approver s with
                   | (inr _, s') =>
                       (inr "Approvers added successfully",
                        (database.update_document now document_id
                           (with_approvers (Some approver_ids) no_update)
                           s').2)
                   | (inl e, s') => (inl e, s')
                   end).
  { subst r. unfold main.add_approvers. run. rewrite Hd.
    rewrite decide_False by (intros [?|?]; done).
    by destruct (for_each approver_ids main.check_approver s) as [[e|[]] s']. }
  destruct (for_each_check_approver s approver_ids) as (Hs & Hok & Hbad).
  assert (Hinvalid : (exists a, a ∈ approver_ids /\ ~ valid_approver s a) ->
                     http_status r.1 = 400 /\ r.2 = s).
  { intros (a & Hin & Ha).
    destruct Hbad as (b & _ & _ & Hres).
    { apply Exists_exists. by exists a. }
    rewrite Hr.
    destruct (for_each approver_ids main.check_approver s) as [res s'].
    simpl in Hs, Hres. subst. simpl. done. }
  split; [exact Hinvalid|]. split.
  - intros Hall. rewrite Hr.
    assert (Hres := Hok (proj2 (Forall_forall _ _) Hall)).
    destruct (for_each approver_ids main.check_approver s) as [res s'].
    simpl in Hs, Hres. subst. cbn [fst snd].
    split; [reflexivity|]. by rewrite update_document_lookup, Hd.
  - intros Hchanged a Hin.
    destruct (decide (valid_approver s a)) as [Hv|Hv]; [exact Hv|].
    exfalso. apply Hchanged. apply Hinvalid. by exists a.
Qed.

Lemma add_approvers_rejects_before_writing_witness :
  http_status
    (main.add_approvers 5 "d1" ["a1"; "r2"] r1 (sample_store NEW [])).1 = 400
  /\ (main.add_approvers 5 "d1" ["a1"; "r2"] r1 (sample_store NEW [])).2
     = sample_store NEW [].
Proof.
  apply (add_approvers_rejects_before_writing 5 (sample_store NEW []) "d1"
           (sample_doc NEW []) r1 ["a1"; "r2"]).
  - reflexivity.
  - reflexivity.
  - reflexivity.
  - exists "r2". split.
    + apply list_elem_of_further, list_elem_of_here.
    + intros (usr & Hu & Hr). vm_compute in Hu.
      injection Hu as <-. discriminate Hr.
Defined.

(** ** Callers that are not the assigned reviewer *)

(** A reviewer may list any id as approver through a partial update:
    [dict(exclude_unset=True)] is written as it comes. *)
Example reviewer_lists_a_reviewer_as_approver :
  doc_approvers
    <$> documents_collection
          (main.update_document_status 1 "d1"
             {| upd_content := None; upd_approvers := Some (Some ["r2"]);
                upd_status := None; upd_notes := None;
                upd_changes_summary := None |}
             r1 (sample_store NEW [])).2 !! "d1"
  = Some (Some ["r2"]).
Proof. reflexivity. Qed.

(** C6 as stated fails for the read: a caller with role reviewer who is
    not the document's reviewer but is listed among its approvers reads
    the document, and the read even moves its status. *)
Lemma reviewer_listed_as_approver_reads :
  documents_collection (sample_store NEW ["r2"]) !! "d1"
  = Some (sample_doc NEW ["r2"])
  /\ cu_role r2 = "reviewer"
  /\ cu__id r2 ≠ doc_reviewer_id (sample_doc NEW ["r2"])
  /\ http_status (main.get_document 5 "d1" r2 (sample_store NEW ["r2"])).1
     = 200
  /\ stored_status (main.get_document 5 "d1" r2 (sample_store NEW ["r2"])).2
       "d1" = Some (Some IN_PROGRESS).
Proof.
  split; [reflexivity|]. split; [reflexivity|].
  split; [discriminate|]. split; reflexivity.
Qed.

(** C6, amended: for a caller with role reviewer whose id differs from
    the document's [reviewer_id], the update answers 403 and writes
    nothing; the read answers 403 and writes nothing when, in addition,
    the caller's id is not in the document's approvers list. *)
Theorem other_reviewer_forbidden now s document_id d u upd :
  documents_collection s !! document_id = Some d ->
  cu_role u = "reviewer" ->
  cu__id u ≠ doc_reviewer_id d ->
  let w := main.update_document_status now document_id upd u s in
  let r := main.get_document now document_id u s in
  (http_status w.1 = 403 /\ w.2 = s)
  /\ (forall l, doc_approvers d = Some l -> cu__id u ∉ l ->
      http_status r.1 = 403 /\ r.2 = s).
Proof.
  intros Hd Hrole Hne w r. split.
  - subst w. unfold main.update_document_status. run. rewrite Hd.
    rewrite decide_True by exact Hrole.
    rewrite decide_True by exact Hne. done.
  - intros l Hl Hnin. subst r. unfold main.get_document. run. rewrite Hd.
    rewrite decide_True by exact Hne. rewrite Hl. unfold not_in, ret.
    rewrite bool_decide_eq_true_2 by exact Hnin. done.
Qed.

Lemma other_reviewer_forbidden_witness :
  (http_status
     (main.update_document_status 5 "d1" (sample_update (Some CHANGES_MADE) "n")
        r2 (sample_store IN_PROGRESS ["a1"])).1 = 403
   /\ (main.update_document_status 5 "d1"
         (sample_update (Some CHANGES_MADE) "n")
         r2 (sample_store IN_PROGRESS ["a1"])).2
      = sample_store IN_PROGRESS ["a1"])
  /\ (http_status
        (main.get_document 5 "d1" r2 (sample_store IN_PROGRESS ["a1"])).1
      = 403
      /\ (main.get_document 5 "d1" r2 (sample_store IN_PROGRESS ["a1"])).2
         = sample_store IN_PROGRESS ["a1"]).
Proof.
  assert (Hd : documents_collection (sample_store IN_PROGRESS ["a1"]) !! "d1"
               = Some (sample_doc IN_PROGRESS ["a1"])) by reflexivity.
  assert (Hrole : cu_role r2 = "reviewer") by reflexivity.
  assert (Hne : cu__id r2 ≠ doc_reviewer_id (sample_doc IN_PROGRESS ["a1"]))
    by discriminate.
  destruct (other_reviewer_forbidden 5 _ "d1" _ r2
              (sample_update (Some CHANGES_MADE) "n") Hd Hrole Hne)
    as [Hput Hget].
  split; [exact Hput|].
  apply (Hget ["a1"]); [reflexivity|].
  intros Hin. apply list_elem_of_singleton in Hin. discriminate Hin.
Defined.

(** ** The status sweep *)

(** A stored date lies before an encoded bound exactly when it lies a
    whole millisecond or more before the time the bound was made from. *)
Lemma stored_date_before_bound (c t : datetime) :
  bson_date c = c -> (c < bson_date t <-> 1000 <= t - c).
Proof.
  unfold bson_date. intros Hc.
  pose proof (Z.div_mod t 1000) as Ht.
  pose proof (Z.mod_pos_bound t 1000) as Hr.
  lia.
Qed.

(** C7 as stated fails: a NEW document created more than one day before
    the clock reading, but less than a millisecond more, is left NEW. *)
Lemma sweep_keeps_new_within_the_millisecond :
  documents_collection (sample_store NEW []) !! "d1"
  = Some (sample_doc NEW [])
  /\ doc_status (sample_doc NEW []) = Some NEW
  /\ timedelta_days 1 < 86400000001 - doc_created_at (sample_doc NEW [])
  /\ documents_collection
       (database.update_document_status 86400000001 (sample_store NEW [])).2
       !! "d1"
     = Some (sample_doc NEW []).
Proof. repeat split; reflexivity. Qed.

(** C7, amended: the sweep leaves PENDING in exactly the documents that
    are NEW and whose [created_at] lies before the clock reading minus
    one day as the query carries it, cut to the millisecond, keeping
    their other fields; for a date as the store keeps it, that is a
    document created one day and a millisecond, or more, before the clock
    reading.  Every other document, every user and every clause is as
    before, and no document appears. *)
Theorem sweep_marks_stale_new_documents now s document_id :
  let s' := (database.update_document_status now s).2 in
  let one_day_ago := bson_date (now - timedelta_days 1) in
  users_collection s' = users_collection s
  /\ clauses_collection s' = clauses_collection s
  /\ (documents_collection s !! document_id = None ->
      documents_collection s' !! document_id = None)
  /\ (forall d,
        documents_collection s !! document_id = Some d ->
        (doc_status d = Some NEW /\ doc_created_at d < one_day_ago ->
         documents_collection s' !! document_id
         = Some (set_doc_status PENDING d))
        /\ (~ (doc_status d = Some NEW /\ doc_created_at d < one_day_ago) ->
            documents_collection s' !! document_id = Some d)
        /\ (bson_date (doc_created_at d) = doc_created_at d ->
            (doc_created_at d < one_day_ago
             <-> timedelta_days 1 + 1000 <= now - doc_created_at d))).
Proof.
  intros s' one_day_ago. subst s' one_day_ago.
  unfold database.update_document_status. run.
  split; [reflexivity|]. split; [reflexivity|]. split.
  - intros Hnone. by rewrite lookup_fmap, Hnone.
  - intros d Hd. rewrite lookup_fmap, Hd. simpl. split; [|split].
    + intros Hm. by rewrite decide_True by exact Hm.
    + intros Hnot. by rewrite decide_False by exact Hnot.
    + intros Hc. rewrite (stored_date_before_bound _ _ Hc). lia.
Qed.

Lemma sweep_marks_stale_new_documents_witness :
  documents_collection
    (database.update_document_status 86400001000 (sample_store NEW [])).2
    !! "d1"
  = Some (set_doc_status PENDING (sample_doc NEW [])).
Proof.
  destruct (sweep_marks_stale_new_documents 86400001000 (sample_store NEW [])
              "d1") as (_ & _ & _ & Hdoc).
  destruct (Hdoc (sample_doc NEW [])) as (Hstale & _ & _); [reflexivity|].
  apply Hstale. split; [reflexivity | reflexivity].
Defined.

(** A NEW document exactly one day old is not yet swept. *)
Example sweep_keeps_one_day_old :
  documents_collection
    (database.update_document_status 86400000000 (sample_store NEW [])).2
    !! "d1"
  = Some (sample_doc NEW []).
Proof. reflexivity. Qed.

(** ** Deleting a clause *)

(** C4 (what the code does): the 404 raised for an absent clause is caught
    by the handler's own [except Exception] and leaves as a 500 whose
    detail is the text of the 404; the store is as before. *)
Theorem delete_clause_absent_answers_500 object_id clause_id key s :
  object_id clause_id = Some key ->
  clauses_collection s !! key = None ->
  clauses.delete_clause object_id clause_id s
  = (inl (HTTPException 500
            (StrOf (HTTPException 404 (Text "Clause not found") [])) []),
     s).
Proof.
  intros Hkey Habsent. unfold clauses.delete_clause, clauses.ObjectId,
    clauses.find_one, clauses.internal_error. run.
  rewrite Hkey. simpl. rewrite Habsent. reflexivity.
Qed.

Lemma delete_clause_absent_answers_500_witness :
  http_status
    (clauses.delete_clause clauses.hex_object_id "507f1f77bcf86cd799439011"
       (sample_store NEW [])).1 = 500.
Proof.
  rewrite (delete_clause_absent_answers_500 clauses.hex_object_id
             "507f1f77bcf86cd799439011" "507f1f77bcf86cd799439011"
             (sample_store NEW [])).
  - reflexivity.
  - reflexivity.
  - reflexivity.
Defined.

(** No input makes [delete_clause] answer 404. *)
Lemma delete_clause_never_404 object_id clause_id s :
  http_status (clauses.delete_clause object_id clause_id s).1 ≠ 404.
Proof.
  unfold clauses.delete_clause, clauses.ObjectId, clauses.find_one,
    clauses.delete_one, clauses.internal_error. run.
  destruct (object_id clause_id) as [key|]; simpl; [|done].
  destruct (clauses_collection s !! key) eqn:Hk; simpl; [|done].
  rewrite Hk. simpl. done.
Qed.

(** ** Which exceptions a handler can raise *)

Section raises.
Context {A B : Type} (P : exn -> Prop).

Lemma raises_ret (a : A) : raises_only P (ret a).
Proof. intros s. exact I. Qed.

Lemma raises_gets (f : Store -> A) : raises_only P (gets f).
Proof. intros s. exact I. Qed.

Lemma raises_modify f : raises_only P (modify f).
Proof. intros s. exact I. Qed.

Lemma raises_raise e : P e -> raises_only P (raise e : M A).
Proof. intros He s. exact He. Qed.

Lemma raises_bind (m : M A) (k : A -> M B) :
  raises_only P m -> (forall a, raises_only P (k a)) ->
  raises_only P (bind m k).
Proof.
  intros Hm Hk s. unfold bind. specialize (Hm s).
  destruct (m s) as [[e|a] s']; simpl in *; [exact Hm | apply Hk].
Qed.

Lemma raises_try_except (body : M A) handler :
  (forall e, raises_only P (handler e)) ->
  raises_only P (try_except body handler).
Proof.
  intros Hh s. unfold try_except.
  destruct (body s) as [[e|a] s']; simpl; [apply Hh | exact I].
Qed.

Lemma raises_call (o : outcome A) :
  (forall msg, P (ExternalError msg)) -> raises_only P (call o).
Proof. intros He s. destruct o; simpl; [apply He | exact I]. Qed.

Lemma raises_for_each (l : list A) body :
  (forall x, raises_only P (body x)) -> raises_only P (for_each l body).
Proof.
  intros Hb. induction l as [|x l IH]; simpl.
  - intros s. exact I.
  - intros s. unfold bind. specialize (Hb x s).
    destruct (body x s) as [[e|[]] s']; simpl in *; [exact Hb | apply IH].
Qed.

End raises.

(** A [try ... except Exception] whose handler raises a 500 lets nothing
    else out. *)
Lemma raises_wrapped_500 {A} (P : exn -> Prop) (body : M A) :
  (forall e, P (HTTPException 500 (StrOf e) [])) ->
  raises_only P
    (try_except body (fun e => raise (HTTPException 500 (StrOf e) []))).
Proof. intros H. apply raises_try_except. intros e s. apply H. Qed.

Ltac in_codes := unfold status_among, exn_status; simpl; set_solver.

Ltac raises :=
  repeat first
    [ apply raises_ret | apply raises_gets | apply raises_modify
    | apply raises_wrapped_500; intros; in_codes
    | apply raises_raise; in_codes
    | apply raises_call; intros; in_codes
    | apply raises_for_each; intros
    | apply raises_bind; [|intros]
    | progress case_match
    | progress case_decide ].

Lemma login_raises auth username password :
  raises_only (status_among [401]) (main.login auth username password).
Proof. unfold main.login, database.get_user_by_email. raises. Qed.

Lemma create_new_user_raises auth uuid4 user :
  raises_only (status_among [500]) (main.create_new_user auth uuid4 user).
Proof. unfold main.create_new_user, database.create_user. raises. Qed.

Lemma get_my_documents_raises status u :
  raises_only (status_among [500]) (main.get_my_documents status u).
Proof.
  unfold main.get_my_documents, database.get_documents_for_user. raises.
Qed.

Lemma add_approvers_raises now document_id approver_ids u :
  raises_only (status_among [400; 403; 404])
    (main.add_approvers now document_id approver_ids u).
Proof.
  unfold main.add_approvers, main.check_approver, database.get_document_by_id,
    database.get_user_by_id, database.update_document.
  raises.
Qed.

Lemma get_document_raises now document_id u :
  raises_only (status_among [403; 404; 500])
    (main.get_document now document_id u).
Proof.
  unfold main.get_document, not_in, database.get_document_by_id,
    database.update_document.
  raises.
Qed.

Lemma update_document_status_raises now document_id upd u :
  raises_only (status_among [403; 404; 500])
    (main.update_document_status now document_id upd u).
Proof.
  unfold main.update_document_status, main.notify_approver, not_in, iterate,
    database.get_document_by_id, database.get_user_by_id,
    database.update_document.
  raises.
Qed.

Lemma get_user_by_email_endpoint_raises email :
  raises_only (status_among [404]) (main.get_user_by_email_endpoint email).
Proof.
  unfold main.get_user_by_email_endpoint, database.get_user_by_email. raises.
Qed.

Lemma send_email_raises smtp request :
  raises_only (status_among [500]) (main.send_email smtp request).
Proof. unfold main.send_email. raises. Qed.

Lemma get_user_by_id_endpoint_raises user_id :
  raises_only (status_among [404]) (main.get_user_by_id_endpoint user_id).
Proof.
  unfold main.get_user_by_id_endpoint, database.get_user_by_id. raises.
Qed.

Lemma get_clauses_raises domain :
  raises_only (status_among [500]) (clauses.get_clauses domain).
Proof. unfold clauses.get_clauses, clauses.internal_error. raises. Qed.

Lemma create_clause_raises now now' new_id clause :
  raises_only (status_among [500])
    (clauses.create_clause now now' new_id clause).
Proof. unfold clauses.create_clause, clauses.internal_error. raises. Qed.

Lemma update_clause_raises object_id now clause_id clause :
  raises_only (status_among [500])
    (clauses.update_clause object_id now clause_id clause).
Proof. unfold clauses.update_clause, clauses.internal_error. raises. Qed.

Lemma delete_clause_raises object_id clause_id :
  raises_only (status_among [500])
    (clauses.delete_clause object_id clause_id).
Proof. unfold clauses.delete_clause, clauses.internal_error. raises. Qed.

Lemma chat_raises {Embedding Hit} (svc : ai_chat.Services Embedding Hit) q :
  raises_only (status_among [500]) (ai_chat.chat_endpoint svc q)
  /\ raises_only (status_among [500]) (ai_chat.chat_stream_endpoint svc q).
Proof.
  unfold ai_chat.chat_endpoint, ai_chat.chat_stream_endpoint.
  split; raises.
Qed.

(** The status of a response, from what the handler can raise. *)
Lemma respond_status {A} (m : M A) codes s :
  raises_only (status_among codes) m ->
  (respond m s).1 = 200 \/ (respond m s).1 ∈ codes.
Proof.
  intros H. unfold respond. simpl. specialize (H s).
  destruct (m s) as [[e|a] s']; simpl in *; [right; exact H | by left].
Qed.

(** A handler that raises only 403, 404 or 500 answers neither 400 nor
    401. *)
Lemma respond_status_ordinary {A} (m : M A) codes s :
  raises_only (status_among codes) m ->
  codes ⊆ [403; 404; 500] ->
  let c := (respond m s).1 in
  (c = 200 \/ c ∈ [400; 401; 403; 404; 500]) /\ c ≠ 401 /\ c ≠ 400.
Proof.
  intros Hm Hsub c.
  destruct (respond_status m codes s Hm) as [H|H]; fold c in H.
  - rewrite H. split; [by left|]. split; discriminate.
  - apply Hsub in H.
    split; [right; set_solver|]. split; intros Hc; rewrite Hc in H; set_solver.
Qed.

(** ** Error statuses *)

(** C8 as stated fails: a submitted id that is not an approver is
    answered with 400, and a login with unknown credentials with 401. *)
Lemma error_status_400_and_401 :
  (serve sample_env 5 (POST_document_approvers "d1" ["r2"] r1)
     (sample_store NEW [])).1 = 400
  /\ (serve sample_env 5 (POST_token "nobody@example.org" "pw")
        (sample_store NEW [])).1 = 401
  /\ ~ (forall req,
          (serve sample_env 5 req (sample_store NEW [])).1 ≠ 200 ->
          (serve sample_env 5 req (sample_store NEW [])).1 ∈ [500; 404; 403]).
Proof.
  assert (Hc : (serve sample_env 5 (POST_token "nobody@example.org" "pw")
                  (sample_store NEW [])).1 = 401) by reflexivity.
  split; [reflexivity|]. split; [exact Hc|].
  intros H.
  specialize (H (POST_token "nobody@example.org" "pw")).
  rewrite Hc in H.
  assert (Hin : 401 ∈ [500; 404; 403]) by (apply H; discriminate).
  set_solver.
Qed.

Ltac ordinary_route H :=
  let Hb := fresh in
  pose proof H as Hb;
  eapply respond_status_ordinary in Hb; [|set_solver];
  destruct Hb as (Hb & Hn401 & Hn400);
  split; [exact Hb|]; split; intros Hc;
  [exfalso; exact (Hn401 Hc) | exfalso; exact (Hn400 Hc)].

(** C8, amended: the status of every response is 200 or one of 400, 401,
    403, 404 and 500; 401 is answered only by the login route and 400 only
    by the route that assigns approvers. *)
Theorem error_statuses_of_every_route {Embedding Hit}
    (env : Env Embedding Hit) now req s :
  let c := (serve env now req s).1 in
  (c = 200 \/ c ∈ [400; 401; 403; 404; 500])
  /\ (c = 401 -> exists username password, req = POST_token username password)
  /\ (c = 400 -> exists document_id approver_ids current_user,
        req = POST_document_approvers document_id approver_ids current_user).
Proof.
  intros c. subst c.
  destruct req as [username password | uuid4 user | status current_user
    | document_id approver_ids current_user | document_id current_user
    | document_id update current_user | email | request | uid |
    | domain | new_id utcnow' clause | clause_id clause | clause_id
    | chat_query | chat_query]; unfold serve.
  - destruct (respond_status _ _ s (login_raises (auth env) username password))
      as [H|H]; rewrite ?H.
    + split; [by left|]. split; [eauto | discriminate].
    + split; [right; set_solver|]. split; [eauto|].
      intros Hc. rewrite Hc in H. set_solver.
  - ordinary_route (create_new_user_raises (auth env) uuid4 user).
  - ordinary_route (get_my_documents_raises status current_user).
  - destruct (respond_status _ _ s
                (add_approvers_raises now document_id approver_ids
                   current_user)) as [H|H]; rewrite ?H.
    + split; [by left|]. split; [discriminate | eauto].
    + split; [right; set_solver|]. split; [|eauto].
      intros Hc. rewrite Hc in H. set_solver.
  - ordinary_route (get_document_raises now document_id current_user).
  - ordinary_route
      (update_document_status_raises now document_id update current_user).
  - ordinary_route (get_user_by_email_endpoint_raises email).
  - ordinary_route (send_email_raises (smtp env) request).
  - ordinary_route (get_user_by_id_endpoint_raises uid).
  - split; [left; reflexivity|]. split; discriminate.
  - ordinary_route (get_clauses_raises domain).
  - ordinary_route (create_clause_raises now utcnow' new_id clause).
  - ordinary_route (update_clause_raises (object_id env) now clause_id clause).
  - ordinary_route (delete_clause_raises (object_id env) clause_id).
  - ordinary_route (proj1 (chat_raises (services env) chat_query)).
  - ordinary_route (proj2 (chat_raises (services env) chat_query)).
Qed.

Lemma error_statuses_of_every_route_witness :
  (serve sample_env 5 (POST_token "nobody@example.org" "pw")
     (sample_store NEW [])).1 ∈ [400; 401; 403; 404; 500]
  /\ exists username password,
       POST_token "nobody@example.org" "pw" = POST_token username password.
Proof.
  destruct (error_statuses_of_every_route sample_env 5
              (POST_token "nobody@example.org" "pw") (sample_store NEW []))
    as ([H200|Hin] & H401 & _).
  - discriminate H200.
  - split; [exact Hin | apply H401; reflexivity].
Defined.

(** ** The modification stamp *)

Lemma stamped_refl now s : stamped now s s.
Proof.
  intros k. destruct (documents_collection s !! k); [by left | exact I].
Qed.

Lemma stamped_same_documents now s s' :
  documents_collection s' = documents_collection s -> stamped now s s'.
Proof. intros H k. rewrite H. apply stamped_refl. Qed.

Lemma stamped_trans now s1 s2 s3 :
  stamped now s1 s2 -> stamped now s2 s3 -> stamped now s1 s3.
Proof.
  intros H12 H23 k. specialize (H12 k). specialize (H23 k).
  destruct (documents_collection s1 !! k) as [d1|],
           (documents_collection s2 !! k) as [d2|],
           (documents_collection s3 !! k) as [d3|]; try done.
  destruct H23 as [->|H]; [exact H12 | by right].
Qed.

Lemma writes_update_document now doc_id u :
  writes_stamped now (database.update_document now doc_id u).
Proof.
  intros s k. destruct (decide (doc_id = k)) as [<-|Hne].
  - rewrite update_document_lookup.
    destruct (documents_collection s !! doc_id); simpl; [by right | exact I].
  - rewrite update_document_lookup_ne by exact Hne.
    destruct (documents_collection s !! k); [by left | exact I].
Qed.

Section writes.
Context {A B : Type} (now : datetime).

Lemma writes_ret (a : A) : writes_stamped now (ret a).
Proof. intros s. apply stamped_refl. Qed.

Lemma writes_gets (f : Store -> A) : writes_stamped now (gets f).
Proof. intros s. apply stamped_refl. Qed.

Lemma writes_raise e : writes_stamped now (raise e : M A).
Proof. intros s. apply stamped_refl. Qed.

Lemma writes_call (o : outcome A) : writes_stamped now (call o).
Proof. intros s. destruct o; apply stamped_refl. Qed.

Lemma writes_with_users f : writes_stamped now (modify (with_users f)).
Proof. intros s. by apply stamped_same_documents. Qed.

Lemma writes_with_clauses f : writes_stamped now (modify (with_clauses f)).
Proof. intros s. by apply stamped_same_documents. Qed.

Lemma writes_bind (m : M A) (k : A -> M B) :
  writes_stamped now m -> (forall a, writes_stamped now (k a)) ->
  writes_stamped now (bind m k).
Proof.
  intros Hm Hk s. unfold bind. specialize (Hm s).
  destruct (m s) as [[e|a] s']; simpl in *; [exact Hm|].
  eapply stamped_trans; [exact Hm | apply Hk].
Qed.

Lemma writes_try_except (body : M A) handler :
  writes_stamped now body -> (forall e, writes_stamped now (handler e)) ->
  writes_stamped now (try_except body handler).
Proof.
  intros Hb Hh s. unfold try_except. specialize (Hb s).
  destruct (body s) as [[e|a] s']; simpl in *; [|exact Hb].
  eapply stamped_trans; [exact Hb | apply Hh].
Qed.

End writes.

Lemma writes_for_each {A} now (l : list A) body :
  (forall x, writes_stamped now (body x)) ->
  writes_stamped now (for_each l body).
Proof.
  intros Hb. induction l as [|x l IH]; simpl.
  - apply writes_ret.
  - apply writes_bind; [apply Hb | intros _; exact IH].
Qed.

Ltac writes :=
  repeat first
    [ apply writes_ret | apply writes_gets | apply writes_raise
    | apply writes_call | apply writes_with_users | apply writes_with_clauses
    | apply writes_update_document
    | apply writes_for_each; intros
    | apply writes_try_except; [|intros]
    | apply writes_bind; [|intros]
    | progress case_match
    | progress case_decide ].

Lemma serve_writes_stamped {Embedding Hit} (env : Env Embedding Hit)
    now req s :
  stamped now s (serve env now req s).2.
Proof.
  destruct req; unfold serve, respond; cbn [snd];
    match goal with |- stamped _ _ (?m _).2 =>
      revert s; change (writes_stamped now m) end.
  - unfold main.login, database.get_user_by_email. writes.
  - unfold main.create_new_user, database.create_user. writes.
  - unfold main.get_my_documents, database.get_documents_for_user. writes.
  - unfold main.add_approvers, main.check_approver,
      database.get_document_by_id, database.get_user_by_id. writes.
  - unfold main.get_document, not_in, database.get_document_by_id. writes.
  - unfold main.update_document_status, main.notify_approver, not_in,
      iterate, database.get_document_by_id, database.get_user_by_id. writes.
  - unfold main.get_user_by_email_endpoint, database.get_user_by_email.
    writes.
  - unfold main.send_email, main.await_value, database.get_document_by_id.
    writes.
  - unfold main.get_user_by_id_endpoint, database.get_user_by_id. writes.
  - unfold main.health_check. writes.
  - unfold clauses.get_clauses, clauses.internal_error, clauses.find.
    writes.
  - unfold clauses.create_clause, clauses.internal_error,
      clauses.insert_one. writes.
  - unfold clauses.update_clause, clauses.internal_error, clauses.ObjectId,
      clauses.find_one. writes.
  - unfold clauses.delete_clause, clauses.internal_error, clauses.ObjectId,
      clauses.delete_one, clauses.find_one. writes.
  - unfold ai_chat.chat_endpoint, ai_chat.llm_query,
      ai_chat.generalized_query, database.get_document_by_id. writes.
  - unfold ai_chat.chat_stream_endpoint, ai_chat.generalized_query,
      database.get_document_by_id. writes.
Qed.

(** C9 as stated fails: the stamp is the clock reading cut to the
    millisecond.  A read at 5 microseconds moves the status of a document
    stamped 0 through [update_document]; the stamp written is 0 again, not
    the time of the update, and [last_modified] is at its previous
    value. *)
Lemma update_within_the_millisecond_keeps_stamp :
  exists d d',
    documents_collection (sample_store NEW []) !! "d1" = Some d
    /\ documents_collection
         (serve sample_env 5 (GET_document "d1" r1) (sample_store NEW [])).2
         !! "d1" = Some d'
    /\ d' ≠ d
    /\ doc_last_modified d' = doc_last_modified d
    /\ doc_last_modified d' ≠ 5.
Proof.
  exists (sample_doc NEW []),
    (apply_set (with_last_modified 5
                  (with_status (Some IN_PROGRESS) no_update))
       (sample_doc NEW [])).
  split; [reflexivity|]. split; [reflexivity|].
  split; [discriminate|]. split; [reflexivity | discriminate].
Qed.

(** C9, amended: [update_document] leaves in [last_modified] of the
    document it updates the clock reading cut to the millisecond, the
    resolution of a stored date, whatever the fields requested; and for
    every route, a stored document that differs after the request from
    what it was before carries that stamp. *)
Theorem update_document_stamps_last_modified {Embedding Hit}
    (env : Env Embedding Hit) now req s doc_id update_data :
  (forall d,
     documents_collection s !! doc_id = Some d ->
     doc_last_modified
       <$> documents_collection
             (database.update_document now doc_id update_data s).2 !! doc_id
     = Some (bson_date now))
  /\ (forall document_id d,
        documents_collection s !! document_id = Some d ->
        exists d',
          documents_collection (serve env now req s).2 !! document_id
          = Some d'
          /\ (d' ≠ d -> doc_last_modified d' = bson_date now)).
Proof.
  split.
  - intros d Hd. by rewrite update_document_lookup, Hd.
  - intros k d Hd. pose proof (serve_writes_stamped env now req s k) as H.
    rewrite Hd in H.
    destruct (documents_collection (serve env now req s).2 !! k) as [d'|];
      [|done].
    exists d'. split; [reflexivity|]. intros Hne. by destruct H.
Qed.

Lemma update_document_stamps_last_modified_witness :
  doc_last_modified
    <$> documents_collection
          (database.update_document 7500 "d1"
             (with_last_modified 3 (with_notes None no_update))
             (sample_store NEW [])).2 !! "d1"
  = Some 7000.
Proof.
  apply (proj1 (update_document_stamps_last_modified sample_env 7500 GET_root
                  (sample_store NEW []) "d1"
                  (with_last_modified 3 (with_notes None no_update)))
           (sample_doc NEW [])).
  reflexivity.
Defined.

(** * Further properties of the handlers *)

(** ** What a handler leaves in place *)

Section keeps.
Context {A B : Type} (R : Store -> Store -> Prop) `{!PreOrder R}.

Lemma keeps_ret (a : A) : keeps R (ret a).
Proof. intros s. reflexivity. Qed.

Lemma keeps_gets (f : Store -> A) : keeps R (gets f).
Proof. intros s. reflexivity. Qed.

Lemma keeps_raise e : keeps R (raise e : M A).
Proof. intros s. reflexivity. Qed.

Lemma keeps_call (o : outcome A) : keeps R (call o).
Proof. intros s. destruct o; reflexivity. Qed.

Lemma keeps_modify f : (forall s, R s (f s)) -> keeps R (modify f).
Proof. intros H s. apply H. Qed.

Lemma keeps_bind (m : M A) (k : A -> M B) :
  keeps R m -> (forall a, keeps R (k a)) -> keeps R (bind m k).
Proof.
  intros Hm Hk s. unfold bind. specialize (Hm s).
  destruct (m s) as [[e|a] s']; simpl in *; [exact Hm|].
  etransitivity; [exact Hm | apply Hk].
Qed.

Lemma keeps_try_except (body : M A) handler :
  keeps R body -> (forall e, keeps R (handler e)) ->
  keeps R (try_except body handler).
Proof.
  intros Hb Hh s. unfold try_except. specialize (Hb s).
  destruct (body s) as [[e|a] s']; simpl in *; [|exact Hb].
  etransitivity; [exact Hb | apply Hh].
Qed.

End keeps.

Lemma keeps_for_each {A} R `{!PreOrder R} (l : list A) body :
  (forall x, keeps R (body x)) -> keeps R (for_each l body).
Proof.
  intros Hb. induction l as [|x l IH]; simpl.
  - by apply keeps_ret.
  - apply keeps_bind; [done | apply Hb | intros _; exact IH].
Qed.

#[local] Instance same_identity_preorder : PreOrder same_identity.
Proof.
  split.
  - intros s k. by destruct (documents_collection s !! k).
  - intros s1 s2 s3 H12 H23 k. specialize (H12 k). specialize (H23 k).
    destruct (documents_collection s1 !! k) as [d1|],
             (documents_collection s2 !! k) as [d2|],
             (documents_collection s3 !! k) as [d3|]; try done.
    destruct H12 as (? & ? & ? & ?), H23 as (? & ? & ? & ?).
    repeat split; congruence.
Qed.

#[local] Instance same_users_preorder : PreOrder same_users.
Proof. split; unfold same_users; [done | intros ???; congruence]. Qed.

#[local] Instance same_documents_preorder : PreOrder same_documents.
Proof. split; unfold same_documents; [done | intros ???; congruence]. Qed.

#[local] Instance same_clauses_preorder : PreOrder same_clauses.
Proof. split; unfold same_clauses; [done | intros ???; congruence]. Qed.

#[local] Instance same_store_preorder : PreOrder same_store.
Proof. split; unfold same_store; [done | intros ???; congruence]. Qed.

Lemma same_identity_alter u doc_id s :
  same_identity s (with_documents (alter (apply_set u) doc_id) s).
Proof.
  intros k. simpl. destruct (decide (doc_id = k)) as [<-|Hne].
  - rewrite lookup_alter_eq.
    by destruct (documents_collection s !! doc_id).
  - rewrite lookup_alter_ne by exact Hne.
    by destruct (documents_collection s !! k).
Qed.

Lemma same_identity_same_documents s s' :
  same_documents s s' -> same_identity s s'.
Proof. intros H k. rewrite H. by destruct (documents_collection s !! k). Qed.

Ltac keeping :=
  repeat first
    [ apply keeps_ret; [apply _]
    | apply keeps_gets; [apply _]
    | apply keeps_raise; [apply _]
    | apply keeps_call; [apply _]
    | apply keeps_for_each; [apply _ | intros]
    | apply keeps_try_except; [apply _ | | intros]
    | apply keeps_bind; [apply _ | | intros]
    | apply keeps_modify; intros;
      first [ apply same_identity_alter
            | apply same_identity_same_documents; reflexivity
            | reflexivity ]
    | progress case_match
    | progress case_decide ].

Ltac unfold_routes :=
  unfold main.login, main.create_new_user, main.get_my_documents,
    main.add_approvers, main.check_approver, main.get_document,
    main.update_document_status, main.notify_approver,
    main.get_user_by_email_endpoint, main.send_email, main.await_value,
    main.get_user_by_id_endpoint, main.health_check,
    clauses.get_clauses, clauses.create_clause, clauses.update_clause,
    clauses.delete_clause, clauses.internal_error, clauses.ObjectId,
    clauses.find, clauses.find_one, clauses.insert_one, clauses.delete_one,
    ai_chat.chat_endpoint, ai_chat.chat_stream_endpoint, ai_chat.llm_query,
    ai_chat.generalized_query,
    not_in, iterate,
    database.get_user_by_email, database.get_user_by_id,
    database.create_user, database.get_document_by_id,
    database.update_document, database.get_documents_for_user.

(** X1: no route creates or deletes a document, and none changes the
    [_id], title, reviewer or creation time of one. *)
Theorem routes_keep_document_identity {Embedding Hit}
    (env : Env Embedding Hit) now req s :
  same_identity s (serve env now req s).2.
Proof.
  destruct req; unfold serve, respond; cbn [snd];
    match goal with |- same_identity _ (?m _).2 =>
      revert s; change (keeps same_identity m) end;
    unfold_routes; keeping.
Qed.

(** X2: a route writes only its own collection.  Registering a user
    leaves documents and clauses alone, the three document routes leave
    users and clauses alone, the routes that write clauses leave users and
    documents alone, and every other route, the login, the listing of
    documents, the lookups of users, the listing of clauses, the e-mail
    and the chat routes, leaves the whole store as it found it. *)
Theorem routes_write_their_own_collection {Embedding Hit}
    (env : Env Embedding Hit) now req s :
  route_frame req s (serve env now req s).2.
Proof.
  destruct req; unfold route_frame, serve, respond; cbn [snd];
    try split;
    match goal with |- ?R _ (?m _).2 =>
      revert s; change (keeps R m) end;
    unfold_routes; keeping.
Qed.

(** ** Sending a document by e-mail *)

(** X3: [send_email] answers 500 for every request and every store, and
    never reaches the mail server: it awaits the plain value
    [get_document_by_id] returns, and the [TypeError] this raises is
    caught by the handler's own [except Exception]. *)
Theorem send_email_always_answers_500 smtp request s :
  exists msg,
    main.send_email smtp request s
    = (inl (HTTPException 500 (StrOf (TypeError msg)) []), s).
Proof.
  unfold main.send_email, main.await_value. run.
  destruct (documents_collection s !! req_document_id request);
    eexists; reflexivity.
Qed.

(** ** Clauses *)

(** X4: [update_clause] answers 500, not 404, for a well-formed id that
    names no clause: its 404 is caught by its own [except Exception].
    The store is as before. *)
Theorem update_clause_absent_answers_500
    object_id now clause_id clause key s :
  object_id clause_id = Some key ->
  clauses_collection s !! key = None ->
  clauses.update_clause object_id now clause_id clause s
  = (inl (HTTPException 500
            (StrOf (HTTPException 404 (Text "Clause not found") [])) []),
     s).
Proof.
  intros Hkey Habsent. unfold clauses.update_clause, clauses.ObjectId,
    clauses.find_one, clauses.internal_error. run.
  rewrite Hkey. simpl. by rewrite Habsent.
Qed.

Lemma update_clause_absent_answers_500_witness :
  http_status
    (clauses.update_clause clauses.hex_object_id 9
       "507f1f77bcf86cd799439012" sample_new_clause sample_clause_store).1
  = 500.
Proof.
  rewrite (update_clause_absent_answers_500 clauses.hex_object_id 9
             "507f1f77bcf86cd799439012" sample_new_clause
             "507f1f77bcf86cd799439012" sample_clause_store).
  - reflexivity.
  - reflexivity.
  - reflexivity.
Defined.

(** X5: an id that [ObjectId] refuses makes [update_clause] and
    [delete_clause] answer 500 with the text of [InvalidId] as detail,
    and write nothing. *)
Theorem malformed_clause_id_answers_500 object_id now clause_id clause s :
  object_id clause_id = None ->
  clauses.update_clause object_id now clause_id clause s
  = (inl (HTTPException 500 (StrOf (InvalidId clause_id)) []), s)
  /\ clauses.delete_clause object_id clause_id s
     = (inl (HTTPException 500 (StrOf (InvalidId clause_id)) []), s).
Proof.
  intros Hbad. unfold clauses.update_clause, clauses.delete_clause,
    clauses.ObjectId, clauses.internal_error. run.
  by rewrite Hbad.
Qed.

Lemma malformed_clause_id_answers_500_witness :
  clauses.delete_clause clauses.hex_object_id "42" sample_clause_store
  = (inl (HTTPException 500 (StrOf (InvalidId "42")) []),
     sample_clause_store).
Proof.
  apply (malformed_clause_id_answers_500 clauses.hex_object_id 9 "42"
           sample_new_clause sample_clause_store).
  reflexivity.
Defined.

(** X6: deleting a clause that exists succeeds, removes that clause
    and keeps every other one. *)
Theorem delete_clause_removes_the_clause object_id clause_id key c s :
  object_id clause_id = Some key ->
  clauses_collection s !! key = Some c ->
  let r := clauses.delete_clause object_id clause_id s in
  r.1 = inr "Clause deleted successfully"
  /\ clauses_collection r.2 !! key = None
  /\ (forall other, other ≠ key ->
      clauses_collection r.2 !! other = clauses_collection s !! other).
Proof.
  intros Hkey Hc r. subst r. unfold clauses.delete_clause, clauses.ObjectId,
    clauses.find_one, clauses.delete_one, clauses.internal_error. run.
  rewrite Hkey. simpl. rewrite Hc. simpl. rewrite Hc. simpl.
  split; [reflexivity|]. split.
  - apply lookup_delete_eq.
  - intros other Hne. by apply lookup_delete_ne.
Qed.

Lemma delete_clause_removes_the_clause_witness :
  (clauses.delete_clause clauses.hex_object_id "507f1f77bcf86cd799439011"
     sample_clause_store).1 = inr "Clause deleted successfully"
  /\ clauses_collection
       (clauses.delete_clause clauses.hex_object_id "507f1f77bcf86cd799439011"
          sample_clause_store).2 !! "507f1f77bcf86cd799439011" = None.
Proof.
  destruct (delete_clause_removes_the_clause clauses.hex_object_id
              "507f1f77bcf86cd799439011" "507f1f77bcf86cd799439011"
              sample_clause sample_clause_store) as (Hok & Hgone & _).
  - reflexivity.
  - reflexivity.
  - split; [exact Hok | exact Hgone].
Defined.



(** X8: a created clause is returned with the id of the insert and
    the two clock readings as they were read; it is stored under that id
    with the readings cut to the millisecond; deleting it again gives
    back the store from before the creation. *)
Theorem create_clause_then_delete object_id utcnow utcnow' new_id clause s :
  clauses_collection s !! new_id = None ->
  object_id new_id = Some new_id ->
  let r := clauses.create_clause utcnow utcnow' new_id clause s in
  r.1 = inr {| clauses.id := new_id;
               clauses.in_db_title := clauses.title clause;
               clauses.in_db_description := clauses.description clause;
               clauses.in_db_domain := clauses.domain clause;
               clauses.created_at := utcnow;
               clauses.last_modified := utcnow' |}
  /\ clauses_collection r.2 !! new_id
     = Some {| clause_title := clauses.title clause;
               clause_description := clauses.description clause;
               clause_domain := clauses.domain clause;
               clause_created_at := bson_date utcnow;
               clause_last_modified := bson_date utcnow' |}
  /\ clauses.delete_clause object_id new_id r.2
     = (inr "Clause deleted successfully", s).
Proof.
  intros Hfresh Hid r. subst r. unfold clauses.create_clause,
    clauses.insert_one, clauses.delete_clause, clauses.ObjectId,
    clauses.find_one, clauses.delete_one, clauses.internal_error. run.
  rewrite Hfresh. simpl. rewrite lookup_insert_eq.
  split; [reflexivity|]. split; [reflexivity|].
  rewrite Hid. simpl. rewrite lookup_insert_eq. simpl.
  rewrite lookup_insert_eq. simpl.
  f_equal. destruct s as [us ds cs]. unfold with_clauses. simpl in *.
  f_equal. by apply delete_insert_id.
Qed.

Lemma create_clause_then_delete_witness :
  clauses_collection
    (clauses.create_clause 7400 7600 "507f1f77bcf86cd799439012"
       sample_new_clause sample_clause_store).2
    !! "507f1f77bcf86cd799439012"
  = Some {| clause_title := "Termination"; clause_description := "notice";
            clause_domain := "employment"; clause_created_at := 7000;
            clause_last_modified := 7000 |}
  /\ clauses.delete_clause clauses.hex_object_id "507f1f77bcf86cd799439012"
       (clauses.create_clause 7400 7600 "507f1f77bcf86cd799439012"
          sample_new_clause sample_clause_store).2
     = (inr "Clause deleted successfully", sample_clause_store).
Proof.
  destruct (create_clause_then_delete clauses.hex_object_id 7400 7600
              "507f1f77bcf86cd799439012" sample_new_clause
              sample_clause_store) as (_ & Hstored & Hback).
  - reflexivity.
  - reflexivity.
  - split; [exact Hstored | exact Hback].
Defined.


(** ** Users *)

Lemma elem_of_map_values {V} (m : gmap string V) (v : V) :
  v ∈ (map_to_list m).*2 <-> exists k, m !! k = Some v.
Proof.
  rewrite list_elem_of_fmap. split.
  - intros ([k v'] & -> & Hin). exists k. by apply elem_of_map_to_list.
  - intros (k & Hk). exists (k, v). split; [done|].
    by apply elem_of_map_to_list.
Qed.

(** The first match of a list in which one element matches. *)
Lemma head_filter_unique {V} (P : V -> Prop) `{!forall x, Decision (P x)}
    (l : list V) (x : V) :
  x ∈ l -> P x -> (forall y, y ∈ l -> P y -> y = x) ->
  head (filter P l) = Some x.
Proof.
  intros Hin HP Huniq.
  destruct (filter P l) as [|y ys] eqn:Hf.
  - assert (Hx : x ∈ filter P l) by (by apply list_elem_of_filter).
    rewrite Hf in Hx. by apply not_elem_of_nil in Hx.
  - simpl. f_equal. apply Huniq.
    + assert (Hy : y ∈ filter P l) by (rewrite Hf; apply list_elem_of_here).
      by apply list_elem_of_filter in Hy as [_ ?].
    + assert (Hy : y ∈ filter P l) by (rewrite Hf; apply list_elem_of_here).
      by apply list_elem_of_filter in Hy as [? _].
Qed.

(** The record [create_new_user] stores. *)
Lemma create_new_user_fresh auth uuid4 user s :
  users_collection s !! uuid4 = None ->
  main.create_new_user auth uuid4 user s
  = (inr "User created successfully",
     with_users (insert uuid4 (registered_user auth uuid4 user)) s).
Proof.
  intros Hfresh. unfold main.create_new_user, database.create_user. run.
  by rewrite Hfresh.
Qed.

Lemma get_user_by_email_after_insert auth uuid4 user s :
  users_collection s !! uuid4 = None ->
  email_free s (in_email user) ->
  database.get_user_by_email (in_email user)
    (with_users (insert uuid4 (registered_user auth uuid4 user)) s)
  = (inr (Some (registered_user auth uuid4 user)),
     with_users (insert uuid4 (registered_user auth uuid4 user)) s).
Proof.
  intros Hfresh Hemail. unfold database.get_user_by_email. run.
  f_equal. f_equal. apply head_filter_unique.
  - apply elem_of_map_values. exists uuid4. apply lookup_insert_eq.
  - reflexivity.
  - intros y Hy Hmail. apply elem_of_map_values in Hy as (k & Hk).
    destruct (decide (uuid4 = k)) as [<-|Hne].
    + rewrite lookup_insert_eq in Hk. congruence.
    + rewrite lookup_insert_ne in Hk by exact Hne.
      by apply Hemail in Hk.
Qed.

Lemma sample_email_free : email_free (sample_store NEW []) "new@example.org".
Proof.
  intros k other Hk Heq.
  destruct (decide (k = "r1")) as [->|?];
    [vm_compute in Hk; injection Hk as <-; discriminate Heq|].
  destruct (decide (k = "r2")) as [->|?];
    [vm_compute in Hk; injection Hk as <-; discriminate Heq|].
  destruct (decide (k = "a1")) as [->|?];
    [vm_compute in Hk; injection Hk as <-; discriminate Heq|].
  simpl in Hk. rewrite !lookup_insert_ne in Hk by done.
  by rewrite lookup_empty in Hk.
Defined.

(** X10: a user registered under a new e-mail is found again, by the
    drawn [_id] and by the e-mail, with the id and the role of the
    request, with the hash of the password in place of the password and
    with the creation time cut to the millisecond. *)
Theorem create_new_user_then_fetch auth uuid4 user s :
  users_collection s !! uuid4 = None ->
  email_free s (in_email user) ->
  let r := main.create_new_user auth uuid4 user s in
  r.1 = inr "User created successfully"
  /\ (main.get_user_by_id_endpoint uuid4 r.2).1
     = inr (registered_user auth uuid4 user)
  /\ (main.get_user_by_email_endpoint (in_email user) r.2).1
     = inr (registered_user auth uuid4 user).
Proof.
  intros Hfresh Hemail r. subst r.
  rewrite (create_new_user_fresh _ _ _ _ Hfresh). cbn [fst snd].
  split; [reflexivity|]. split.
  - unfold main.get_user_by_id_endpoint. run. by rewrite lookup_insert_eq.
  - unfold main.get_user_by_email_endpoint, bind.
    by rewrite (get_user_by_email_after_insert _ _ _ _ Hfresh Hemail).
Qed.

Lemma create_new_user_then_fetch_witness :
  (main.get_user_by_email_endpoint "new@example.org"
     (main.create_new_user sample_auth "u-77" sample_user_in
        (sample_store NEW [])).2).1
  = inr {| user__id := "u-77"; user_id := "u9";
           user_email := "new@example.org"; user_password := "secret";
           user_role := "approver"; user_created_at := 3000 |}.
Proof.
  destruct (create_new_user_then_fetch sample_auth "u-77" sample_user_in
              (sample_store NEW [])) as (_ & _ & Hmail).
  - reflexivity.
  - exact sample_email_free.
  - exact Hmail.
Defined.

(** X11: registration never checks the e-mail: a request whose e-mail
    is already registered succeeds all the same, and the store then holds
    both users under that e-mail. *)
Theorem create_new_user_accepts_taken_email auth uuid4 user k other s :
  users_collection s !! uuid4 = None ->
  users_collection s !! k = Some other ->
  user_email other = in_email user ->
  let r := main.create_new_user auth uuid4 user s in
  r.1 = inr "User created successfully"
  /\ users_collection r.2 !! k = Some other
  /\ exists stored,
       users_collection r.2 !! uuid4 = Some stored
       /\ user_email stored = user_email other
       /\ k ≠ uuid4.
Proof.
  intros Hfresh Hk Hemail r. subst r.
  rewrite (create_new_user_fresh _ _ _ _ Hfresh). cbn [fst snd].
  assert (Hne : uuid4 ≠ k) by (intros ->; congruence).
  split; [reflexivity|]. split.
  - simpl. by rewrite lookup_insert_ne.
  - eexists. split; [simpl; apply lookup_insert_eq|]. simpl. by split.
Qed.

Lemma create_new_user_accepts_taken_email_witness :
  (main.create_new_user sample_auth "u-77"
     {| in_id := "u9"; in_email := "a1@example.org"; in_password := "pw";
        in_role := REVIEWER; in_created_at := 3 |}
     (sample_store NEW [])).1
  = inr "User created successfully".
Proof.
  apply (create_new_user_accepts_taken_email sample_auth "u-77"
           {| in_id := "u9"; in_email := "a1@example.org";
              in_password := "pw"; in_role := REVIEWER;
              in_created_at := 3 |}
           "a1" (sample_user "a1" "approver") (sample_store NEW [])).
  - reflexivity.
  - reflexivity.
  - reflexivity.
Defined.

(** X12: after a registration under a new e-mail, the login with that
    e-mail succeeds with a bearer token made from the new user's [_id],
    e-mail and role when [verify_password] accepts the password against
    the stored hash, and answers 401 when it does not. *)
Theorem register_then_login auth uuid4 user password s :
  users_collection s !! uuid4 = None ->
  email_free s (in_email user) ->
  let s' := (main.create_new_user auth uuid4 user s).2 in
  let r := main.login auth (in_email user) password s' in
  (verify_password auth password
     (get_password_hash auth (in_password user)) = true ->
   r.1 = inr {| main.access_token :=
                  create_access_token auth uuid4 (in_email user)
                    (role_value (in_role user))
                    (ACCESS_TOKEN_EXPIRE_MINUTES auth);
                main.token_type := "bearer" |})
  /\ (verify_password auth password
        (get_password_hash auth (in_password user)) = false ->
      http_status r.1 = 401).
Proof.
  intros Hfresh Hemail s' r. subst r s'.
  rewrite (create_new_user_fresh _ _ _ _ Hfresh). cbn [snd].
  unfold main.login, bind.
  rewrite (get_user_by_email_after_insert _ _ _ _ Hfresh Hemail).
  cbn [registered_user user_password user__id user_email user_role].
  split; intros Hv; rewrite Hv; reflexivity.
Qed.

Lemma register_then_login_witness :
  http_status
    (main.login sample_auth "new@example.org" "secret"
       (main.create_new_user sample_auth "u-77" sample_user_in
          (sample_store NEW [])).2).1 = 200.
Proof.
  destruct (register_then_login sample_auth "u-77" sample_user_in "secret"
              (sample_store NEW [])) as (Hok & _).
  - reflexivity.
  - exact sample_email_free.
  - exact (f_equal http_status (Hok eq_refl)).
Defined.

(** ** Listing the caller's documents *)

(** ** Encoding the content *)

Lemma list_ind_by_three {V} (P : list V -> Prop) :
  P [] -> (forall a, P [a]) -> (forall a b, P [a; b]) ->
  (forall a b c l, P l -> P (a :: b :: c :: l)) ->
  forall l, P l.
Proof.
  intros H0 H1 H2 H3.
  assert (Hall : forall l, P l /\ (forall a, P (a :: l))
                           /\ (forall a b, P (a :: b :: l))).
  { induction l as [|x l (IH0 & IH1 & IH2)].
    - by repeat split.
    - split; [apply IH1|]. split; [intros a; apply IH2|].
      intros a b. by apply H3. }
  intros l. apply Hall.
Qed.

(** X14: [b64encode] turns every three bytes, the last group padded,
    into four characters: the result has 4 * ceil(n / 3) characters for
    n bytes. *)
Theorem b64encode_length bs :
  String.length (b64encode bs) = (4 * ((length bs + 2) / 3))%nat.
Proof.
  induction bs as [|a|a b|a b c l IH] using list_ind_by_three;
    try reflexivity.
  cbn [b64encode String.length length]. rewrite IH.
  replace (S (S (S (length l))) + 2)%nat with (length l + 2 + 1 * 3)%nat
    by lia.
  rewrite Nat.div_add by lia. lia.
Qed.

Lemma b64_char_in_alphabet (m : N) :
  (m < 64)%N ->
  b64_char m ∈ String.list_ascii_of_string b64_alphabet.
Proof.
  intros Hm.
  assert (Hall : Forall (fun i : nat =>
                   b64_char (N.of_nat i)
                   ∈ String.list_ascii_of_string b64_alphabet)
                   (seq 0 64)).
  { apply Forall_forall. intros i Hi. apply list_elem_of_In.
    revert i Hi. apply Forall_forall.
    apply (bool_decide_unpack _). vm_compute. exact I. }
  rewrite <- (N2Nat.id m). apply (proj1 (Forall_forall _ _) Hall).
  apply elem_of_seq. lia.
Qed.

Lemma b64_sextet_in_alphabet n k :
  b64_sextet n k ∈ String.list_ascii_of_string b64_alphabet.
Proof.
  unfold b64_sextet. apply b64_char_in_alphabet.
  change 63%N with (N.ones 6). rewrite N.land_ones.
  apply N.mod_lt. discriminate.
Qed.

(** X15: every character [b64encode] produces is one of the sixty-four
    of the alphabet or the padding sign. *)
Theorem b64encode_alphabet bs :
  Forall (fun c => c ∈ String.list_ascii_of_string b64_alphabet
                   \/ c = "="%char)
    (String.list_ascii_of_string (b64encode bs)).
Proof.
  induction bs as [|a|a b|a b c l IH] using list_ind_by_three;
    cbn [b64encode]; cbv zeta; cbn [String.list_ascii_of_string].
  - constructor.
  - repeat (apply Forall_cons; split;
            [first [left; apply b64_sextet_in_alphabet
                   | right; reflexivity]|]).
    constructor.
  - repeat (apply Forall_cons; split;
            [first [left; apply b64_sextet_in_alphabet
                   | right; reflexivity]|]).
    constructor.
  - repeat (apply Forall_cons; split;
            [left; apply b64_sextet_in_alphabet|]).
    exact IH.
Qed.

(** X16: [encode_content] changes nothing but the content; it leaves
    text, null and empty bytes as they are and turns non-empty bytes into
    their base64 text, so encoding twice is encoding once. *)
Theorem encode_content_only_encodes_bytes d :
  let d' := encode_content d in
  doc_content d'
  = match doc_content d with
    | Some (CBytes (b :: bs)) => Some (CStr (b64encode (b :: bs)))
    | other => other
    end
  /\ d' = {| doc__id := doc__id d; doc_title := doc_title d;
            doc_content := doc_content d';
            doc_reviewer_id := doc_reviewer_id d;
            doc_approvers := doc_approvers d;
            doc_status := doc_status d;
            doc_created_at := doc_created_at d;
            doc_last_modified := doc_last_modified d;
            doc_notes := doc_notes d;
            doc_last_reviewed_by := doc_last_reviewed_by d;
            doc_changes_summary := doc_changes_summary d |}
  /\ encode_content d' = d'.
Proof.
  unfold encode_content.
  destruct d as [i t [[[|b bs]|str]|] r a st c m n l cs]; simpl;
    repeat split; reflexivity.
Qed.

(** ** The document routes: who is turned away *)

(** X17: for an id that names no document, the read, the update and the
    assignment of approvers answer 404 for every caller and write
    nothing. *)
Theorem unknown_document_answers_404
    now document_id approver_ids upd u s :
  documents_collection s !! document_id = None ->
  let not_found := HTTPException 404 (Text "Document not found") [] in
  main.get_document now document_id u s = (inl not_found, s)
  /\ main.update_document_status now document_id upd u s = (inl not_found, s)
  /\ main.add_approvers now document_id approver_ids u s = (inl not_found, s).
Proof.
  intros Hnone. unfold main.get_document, main.update_document_status,
    main.add_approvers. run. by rewrite Hnone.
Qed.

Lemma unknown_document_answers_404_witness :
  main.get_document 5 "d2" r1 (sample_store NEW [])
  = (inl (HTTPException 404 (Text "Document not found") []),
     sample_store NEW []).
Proof.
  apply (unknown_document_answers_404 5 "d2" [] (sample_update None "n") r1
           (sample_store NEW [])).
  reflexivity.
Defined.

(** X18: approvers are assigned by the document's reviewer only: a
    caller whose role is not "reviewer", or whose id is not the
    document's [reviewer_id], is answered 403, whatever the list, and
    nothing is written. *)
Theorem add_approvers_only_by_assigned_reviewer
    now s document_id d u approver_ids :
  documents_collection s !! document_id = Some d ->
  cu_role u ≠ "reviewer" \/ cu__id u ≠ doc_reviewer_id d ->
  main.add_approvers now document_id approver_ids u s
  = (inl (HTTPException 403
            (Text "Only the assigned reviewer can add approvers") []), s).
Proof.
  intros Hd Hnot. unfold main.add_approvers. run. rewrite Hd.
  by rewrite decide_True by exact Hnot.
Qed.

Lemma add_approvers_only_by_assigned_reviewer_witness :
  http_status
    (main.add_approvers 5 "d1" ["a1"] a1 (sample_store NEW [])).1 = 403.
Proof.
  rewrite (add_approvers_only_by_assigned_reviewer 5 (sample_store NEW [])
             "d1" (sample_doc NEW []) a1 ["a1"]).
  - reflexivity.
  - reflexivity.
  - left. discriminate.
Defined.

(** X19: a caller who is neither the document's reviewer nor in its
    approvers list is answered 403 by the read, whatever the role; a
    caller with any role but "reviewer" who is not in the approvers list
    is answered 403 by the update.  Neither writes. *)
Theorem unlisted_caller_forbidden now s document_id d u upd l :
  documents_collection s !! document_id = Some d ->
  doc_approvers d = Some l ->
  cu__id u ∉ l ->
  (cu__id u ≠ doc_reviewer_id d ->
   main.get_document now document_id u s
   = (inl (HTTPException 403
             (Text "Not authorized to access this document") []), s))
  /\ (cu_role u ≠ "reviewer" ->
      main.update_document_status now document_id upd u s
      = (inl (HTTPException 403
                (Text "Not authorized to update this document") []), s)).
Proof.
  intros Hd Hl Hnin. split.
  - intros Hne. unfold main.get_document. run. rewrite Hd.
    rewrite decide_True by exact Hne. rewrite Hl. unfold not_in, ret.
    by rewrite bool_decide_eq_true_2 by exact Hnin.
  - intros Hrole. unfold main.update_document_status. run. rewrite Hd.
    rewrite decide_False by exact Hrole. rewrite Hl. unfold not_in, ret.
    by rewrite bool_decide_eq_true_2 by exact Hnin.
Qed.

Lemma unlisted_caller_forbidden_witness :
  http_status
    (main.update_document_status 5 "d1" (sample_update (Some APPROVED) "ok")
       a1 (sample_store CHANGES_MADE [])).1 = 403.
Proof.
  destruct (unlisted_caller_forbidden 5 (sample_store CHANGES_MADE []) "d1"
              (sample_doc CHANGES_MADE []) a1
              (sample_update (Some APPROVED) "ok") []) as [_ Hput].
  - reflexivity.
  - reflexivity.
  - apply not_elem_of_nil.
  - rewrite Hput; [reflexivity | discriminate].
Defined.

(** X20: a document whose approvers field is null answers 500 to the
    read of anyone but its reviewer and to the update of any caller whose
    role is not "reviewer": the membership test raises, nothing catches
    it, and nothing is written. *)
Theorem null_approvers_answer_500 now s document_id d u upd :
  documents_collection s !! document_id = Some d ->
  doc_approvers d = None ->
  (cu__id u ≠ doc_reviewer_id d ->
   http_status (main.get_document now document_id u s).1 = 500
   /\ (main.get_document now document_id u s).2 = s)
  /\ (cu_role u ≠ "reviewer" ->
      http_status (main.update_document_status now document_id upd u s).1
      = 500
      /\ (main.update_document_status now document_id upd u s).2 = s).
Proof.
  intros Hd Hnull. split.
  - intros Hne. unfold main.get_document. run. rewrite Hd.
    rewrite decide_True by exact Hne. by rewrite Hnull.
  - intros Hrole. unfold main.update_document_status. run. rewrite Hd.
    rewrite decide_False by exact Hrole. by rewrite Hnull.
Qed.

Lemma null_approvers_answer_500_witness :
  http_status
    (main.get_document 9 "d1" a1
       (main.update_document_status 5 "d1"
          {| upd_content := None; upd_approvers := Some None;
             upd_status := None; upd_notes := None;
             upd_changes_summary := None |}
          r1 (sample_store NEW ["a1"])).2).1 = 500.
Proof.
  eapply (null_approvers_answer_500 9 _ "d1" _ a1 (sample_update None "n")).
  - reflexivity.
  - reflexivity.
  - discriminate.
Defined.

(** ** The reviewer's updates *)

Lemma for_each_notify_approver s approvers :
  (for_each approvers main.notify_approver s).2 = s
  /\ ((forall a, a ∈ approvers -> is_Some (users_collection s !! a)) ->
      (for_each approvers main.notify_approver s).1 = inr tt)
  /\ ((exists a, a ∈ approvers /\ users_collection s !! a = None) ->
      exists msg,
        (for_each approvers main.notify_approver s).1 = inl (TypeError msg)).
Proof.
  induction approvers as [|a l (IHs & IHok & IHbad)]; simpl.
  - split; [reflexivity|]. split; [reflexivity|].
    intros (a & Hin & _). by apply not_elem_of_nil in Hin.
  - unfold bind, main.notify_approver at 1 3 5. run.
    destruct (users_collection s !! a) as [usr|] eqn:Hu; simpl.
    + split; [exact IHs|]. split.
      * intros Hall. apply IHok. intros b Hb. apply Hall.
        by apply list_elem_of_further.
      * intros (b & Hin & Hb). apply IHbad.
        apply elem_of_cons in Hin as [->|Hin]; [congruence|]. by exists b.
    + split; [reflexivity|]. split.
      * intros Hall. destruct (Hall a) as [? Hsome];
          [apply list_elem_of_here | congruence].
      * intros _. eexists. reflexivity.
Qed.

(** X21: when the assigned reviewer marks the changes as made and every
    listed approver has a user record, the store holds CHANGES_MADE with
    the summary and the notes of the request, whatever else the request
    set. *)
Theorem reviewer_marks_changes_made now s document_id d u upd l :
  documents_collection s !! document_id = Some d ->
  cu_role u = "reviewer" ->
  cu__id u = doc_reviewer_id d ->
  field_value (upd_status upd) = Some CHANGES_MADE ->
  doc_approvers d = Some l ->
  (forall a, a ∈ l -> is_Some (users_collection s !! a)) ->
  let r := main.update_document_status now document_id upd u s in
  exists d',
    r.1 = inr "Document updated successfully"
    /\ documents_collection r.2 !! document_id = Some d'
    /\ doc_status d' = Some CHANGES_MADE
    /\ doc_changes_summary d' = field_value (upd_changes_summary upd)
    /\ doc_notes d' = field_value (upd_notes upd)
    /\ doc_content d' = doc_content d
    /\ doc_approvers d' = doc_approvers d.
Proof.
  intros Hd Hrole Hid Hst Hl Hall r. subst r.
  destruct (for_each_notify_approver s l) as (Hs & Hok & _).
  specialize (Hok Hall).
  unfold main.update_document_status. run. rewrite Hd.
  rewrite decide_True by exact Hrole.
  rewrite decide_False by (intros Hne; by apply Hne).
  rewrite decide_True by exact Hst.
  rewrite Hl. unfold iterate, ret.
  destruct (for_each l main.notify_approver s) as [res s0].
  simpl in Hs, Hok. subst res s0. cbn [fst snd].
  eexists. split; [reflexivity|].
  split; [simpl; by rewrite lookup_alter_eq, Hd|]. by repeat split.
Qed.

Lemma reviewer_marks_changes_made_witness :
  exists d',
    (main.update_document_status 5 "d1"
       (sample_update (Some CHANGES_MADE) "done") r1
       (sample_store IN_PROGRESS ["a1"])).1
    = inr "Document updated successfully"
    /\ documents_collection
         (main.update_document_status 5 "d1"
            (sample_update (Some CHANGES_MADE) "done") r1
            (sample_store IN_PROGRESS ["a1"])).2 !! "d1" = Some d'
    /\ doc_status d' = Some CHANGES_MADE
    /\ doc_changes_summary d' = None
    /\ doc_notes d' = Some "done"
    /\ doc_content d' = None
    /\ doc_approvers d' = Some ["a1"].
Proof.
  apply (reviewer_marks_changes_made 5 (sample_store IN_PROGRESS ["a1"]) "d1"
           (sample_doc IN_PROGRESS ["a1"]) r1
           (sample_update (Some CHANGES_MADE) "done") ["a1"]).
  - reflexivity.
  - reflexivity.
  - reflexivity.
  - reflexivity.
  - reflexivity.
  - intros a Ha. apply list_elem_of_singleton in Ha as ->.
    eexists. reflexivity.
Defined.

(** X22: when the assigned reviewer marks the changes as made and a
    listed approver has no user record, the notification of that
    approver raises, the response is 500 and nothing is written: the
    status stays as it was. *)
Theorem reviewer_marks_changes_made_unknown_approver
    now s document_id d u upd l a :
  documents_collection s !! document_id = Some d ->
  cu_role u = "reviewer" ->
  cu__id u = doc_reviewer_id d ->
  field_value (upd_status upd) = Some CHANGES_MADE ->
  doc_approvers d = Some l ->
  a ∈ l ->
  users_collection s !! a = None ->
  let r := main.update_document_status now document_id upd u s in
  http_status r.1 = 500 /\ r.2 = s.
Proof.
  intros Hd Hrole Hid Hst Hl Hin Ha r. subst r.
  destruct (for_each_notify_approver s l) as (Hs & _ & Hbad).
  destruct Hbad as (msg & Hmsg); [by exists a|].
  unfold main.update_document_status. run. rewrite Hd.
  rewrite decide_True by exact Hrole.
  rewrite decide_False by (intros Hne; by apply Hne).
  rewrite decide_True by exact Hst.
  rewrite Hl. unfold iterate, ret.
  destruct (for_each l main.notify_approver s) as [res s0].
  simpl in Hs, Hmsg. subst res s0. by split.
Qed.

Lemma reviewer_marks_changes_made_unknown_approver_witness :
  http_status
    (main.update_document_status 5 "d1"
       (sample_update (Some CHANGES_MADE) "done") r1
       (sample_store IN_PROGRESS ["a1"; "gone"])).1 = 500
  /\ (main.update_document_status 5 "d1"
        (sample_update (Some CHANGES_MADE) "done") r1
        (sample_store IN_PROGRESS ["a1"; "gone"])).2
     = sample_store IN_PROGRESS ["a1"; "gone"].
Proof.
  apply (reviewer_marks_changes_made_unknown_approver 5
           (sample_store IN_PROGRESS ["a1"; "gone"]) "d1"
           (sample_doc IN_PROGRESS ["a1"; "gone"]) r1
           (sample_update (Some CHANGES_MADE) "done") ["a1"; "gone"] "gone").
  - reflexivity.
  - reflexivity.
  - reflexivity.
  - reflexivity.
  - reflexivity.
  - apply list_elem_of_further, list_elem_of_here.
  - reflexivity.
Defined.

(** X23: any other update by the assigned reviewer writes exactly the
    fields the request set, as they come: a status it set (APPROVED and
    null included) is stored without any check, an approvers list it set
    is stored unverified, and a field it did not set keeps its value. *)
Theorem reviewer_partial_update_writes_set_fields
    now s document_id d u upd :
  documents_collection s !! document_id = Some d ->
  cu_role u = "reviewer" ->
  cu__id u = doc_reviewer_id d ->
  field_value (upd_status upd) ≠ Some CHANGES_MADE ->
  let r := main.update_document_status now document_id upd u s in
  exists d',
    r.1 = inr "Document updated successfully"
    /\ documents_collection r.2 !! document_id = Some d'
    /\ doc_status d' = default (doc_status d) (upd_status upd)
    /\ doc_approvers d' = default (doc_approvers d) (upd_approvers upd)
    /\ doc_notes d' = default (doc_notes d) (upd_notes upd)
    /\ doc_changes_summary d'
       = default (doc_changes_summary d) (upd_changes_summary upd)
    /\ doc_content d'
       = default (doc_content d)
           (option_map (option_map CStr) (upd_content upd))
    /\ doc_last_reviewed_by d' = doc_last_reviewed_by d.
Proof.
  intros Hd Hrole Hid Hst r. subst r.
  unfold main.update_document_status. run. rewrite Hd.
  rewrite decide_True by exact Hrole.
  rewrite decide_False by (intros Hne; by apply Hne).
  rewrite decide_False by exact Hst. cbn [fst snd].
  destruct upd as [c a st n cs]. simpl.
  destruct st as [st|]; simpl; rewrite lookup_alter_eq, Hd; simpl;
    eexists; (split; [reflexivity|]); (split; [reflexivity|]);
    simpl; by repeat split.
Qed.

Lemma reviewer_partial_update_writes_set_fields_witness :
  exists d',
    documents_collection
      (main.update_document_status 5 "d1" (sample_update (Some APPROVED) "mine")
         r1 (sample_store NEW [])).2 !! "d1" = Some d'
    /\ doc_status d' = Some APPROVED.
Proof.
  destruct (reviewer_partial_update_writes_set_fields 5 (sample_store NEW [])
              "d1" (sample_doc NEW []) r1 (sample_update (Some APPROVED) "mine"))
    as (d' & _ & Hd' & Hst & _).
  - reflexivity.
  - reflexivity.
  - reflexivity.
  - discriminate.
  - exists d'. split; [exact Hd' | exact Hst].
Defined.

(** ** The sweep, once more *)

(** X24: after the sweep no stored document is NEW with a
    [created_at] before the bound of the sweep, the clock reading minus
    one day cut to the millisecond; so none whose date is one the store
    keeps is NEW and one day and a millisecond, or more, old.  Sweeping
    again at the same reading changes nothing. *)
Theorem sweep_leaves_no_stale_new_document now s :
  let s' := (database.update_document_status now s).2 in
  (forall k d,
     documents_collection s' !! k = Some d ->
     ~ (doc_status d = Some NEW
        /\ doc_created_at d < bson_date (now - timedelta_days 1)))
  /\ (forall k d,
        documents_collection s' !! k = Some d ->
        bson_date (doc_created_at d) = doc_created_at d ->
        ~ (doc_status d = Some NEW
           /\ timedelta_days 1 + 1000 <= now - doc_created_at d))
  /\ (database.update_document_status now s').2 = s'.
Proof.
  intros s'. subst s'. unfold database.update_document_status. run.
  set (f := fun d =>
     if decide (database.sweep_matches
                  (bson_date (now - timedelta_days 1)) d)
     then apply_set (with_status (Some PENDING) no_update) d else d).
  assert (Hfix : forall d,
            ~ database.sweep_matches
                (bson_date (now - timedelta_days 1)) (f d)).
  { intros d. unfold f. case_decide as Hm; [|exact Hm].
    intros [Hst _]. discriminate Hst. }
  assert (Hafter : forall k d,
            f <$> documents_collection s !! k = Some d ->
            ~ (doc_status d = Some NEW
               /\ doc_created_at d < bson_date (now - timedelta_days 1))).
  { intros k d Hk Hm.
    destruct (documents_collection s !! k) as [d0|]; [|discriminate].
    simpl in Hk. injection Hk as <-. by apply (Hfix d0). }
  split; [|split].
  - intros k d Hk. rewrite lookup_fmap in Hk. by apply (Hafter k).
  - intros k d Hk Hc [Hst Hold]. rewrite lookup_fmap in Hk.
    apply (Hafter k d Hk). split; [exact Hst|].
    apply (stored_date_before_bound _ _ Hc). lia.
  - unfold with_documents. simpl. f_equal.
    rewrite <- map_fmap_compose. apply map_fmap_ext.
    intros k d _. simpl. unfold f at 1.
    by rewrite decide_False by apply Hfix.
Qed.

(** ** The chat routes *)

(** X25: for a document id that names no document, both chat routes
    answer 500, not 404: the 404 of the lookup is caught by the
    [except Exception] of the query and wrapped again by the one of the
    route.  Nothing is written and no completion is asked for. *)
Theorem chat_unknown_document_answers_500 {Embedding Hit}
    (svc : ai_chat.Services Embedding Hit) q s :
  ai_chat.QdrantClient svc = inr tt ->
  documents_collection s !! ai_chat.document_id q = None ->
  let wrapped :=
    HTTPException 500
      (StrOf (HTTPException 500
                (StrOf (HTTPException 404 (Text "Document not found") []))
                [])) [] in
  ai_chat.chat_endpoint svc q s = (inl wrapped, s)
  /\ ai_chat.chat_stream_endpoint svc q s = (inl wrapped, s).
Proof.
  intros Hclient Hnone. unfold ai_chat.chat_endpoint,
    ai_chat.chat_stream_endpoint, ai_chat.generalized_query. run.
  rewrite Hclient. simpl. by rewrite Hnone.
Qed.

Lemma chat_unknown_document_answers_500_witness :
  http_status
    (ai_chat.chat_endpoint sample_services
       {| ai_chat.query := "term?"; ai_chat.document_id := "d2";
          ai_chat.filetype := "contract"; ai_chat.top_k := 3 |}
       (sample_store NEW [])).1 = 500.
Proof.
  rewrite (proj1 (chat_unknown_document_answers_500 sample_services
                    {| ai_chat.query := "term?"; ai_chat.document_id := "d2";
                       ai_chat.filetype := "contract"; ai_chat.top_k := 3 |}
                    (sample_store NEW []) eq_refl eq_refl)).
  reflexivity.
Defined.

(** What the retrieval returns when every step of it succeeds. *)
Lemma generalized_query_succeeds {Embedding Hit}
    (svc : ai_chat.Services Embedding Hit) q d embedding hits s :
  ai_chat.QdrantClient svc = inr tt ->
  documents_collection s !! ai_chat.document_id q = Some d ->
  ai_chat.embed_text svc (ai_chat.query q) = inr embedding ->
  ai_chat.search svc (ai_chat.replace ".sfdt" ".docx" (doc_title d))
    embedding (ai_chat.top_k q) = inr hits ->
  ai_chat.generalized_query svc (ai_chat.query q) (ai_chat.document_id q)
    (ai_chat.filetype q) (ai_chat.top_k q) s
  = (inr (ai_chat.query q, hits), s).
Proof.
  intros Hclient Hd Hembed Hsearch. unfold ai_chat.generalized_query. run.
  rewrite Hclient. simpl. rewrite Hd. simpl. rewrite Hembed. simpl.
  by rewrite Hsearch.
Qed.

(** X26: once the retrieval has succeeded, the streaming route answers
    200 whatever the completion does.  A completion that cannot be
    started gives a stream of one event, the error; one that breaks
    midway gives the events of the chunks that carried text, followed by
    the error as the last event. *)
Theorem chat_stream_reports_errors_in_band {Embedding Hit}
    (svc : ai_chat.Services Embedding Hit) q d embedding hits s :
  ai_chat.QdrantClient svc = inr tt ->
  documents_collection s !! ai_chat.document_id q = Some d ->
  ai_chat.embed_text svc (ai_chat.query q) = inr embedding ->
  ai_chat.search svc (ai_chat.replace ".sfdt" ".docx" (doc_title d))
    embedding (ai_chat.top_k q) = inr hits ->
  exists events,
    ai_chat.chat_stream_endpoint svc q s = (inr events, s)
    /\ (forall msg,
          ai_chat.completion_stream svc hits (ai_chat.query q) = inl msg ->
          events = [ai_chat.sse ("Error: " +:+ msg)])
    /\ (forall chunks msg,
          ai_chat.completion_stream svc hits (ai_chat.query q)
          = inr (chunks, Some msg) ->
          events = ((ai_chat.sse <$> omap id chunks)
                    ++ [ai_chat.sse ("Error: " +:+ msg)])%list)
    /\ (forall chunks,
          ai_chat.completion_stream svc hits (ai_chat.query q)
          = inr (chunks, None) ->
          events = ai_chat.sse <$> omap id chunks).
Proof.
  intros Hclient Hd Hembed Hsearch.
  unfold ai_chat.chat_stream_endpoint, try_except, bind.
  rewrite (generalized_query_succeeds svc q d embedding hits s
             Hclient Hd Hembed Hsearch).
  eexists. split; [reflexivity|]. cbn [snd].
  unfold ai_chat.stream_llm_response.
  split; [|split].
  - intros msg Hc. by rewrite Hc.
  - intros chunks msg Hc. by rewrite Hc.
  - intros chunks Hc. rewrite Hc. by rewrite app_nil_r.
Qed.

Lemma chat_stream_reports_errors_in_band_witness :
  ai_chat.chat_stream_endpoint broken_stream_services sample_chat_query
    (sample_store NEW [])
  = (inr [ai_chat.sse "The "; ai_chat.sse "Error: timeout"],
     sample_store NEW []).
Proof.
  destruct (chat_stream_reports_errors_in_band broken_stream_services
              sample_chat_query (sample_doc NEW []) tt [tt]
              (sample_store NEW []))
    as (events & Hres & _ & Hbroken & _).
  - reflexivity.
  - reflexivity.
  - reflexivity.
  - reflexivity.
  - rewrite Hres. f_equal. f_equal.
    apply (Hbroken [Some "The "; None] "timeout"). reflexivity.
Defined.

(** X27: the chat route answers with the completion for the hits found
    under the document's title with ".sfdt" replaced by ".docx"; when the
    completion fails it answers 500.  Neither writes. *)
Theorem chat_endpoint_answers_from_hits {Embedding Hit}
    (svc : ai_chat.Services Embedding Hit) q d embedding hits s :
  ai_chat.QdrantClient svc = inr tt ->
  documents_collection s !! ai_chat.document_id q = Some d ->
  ai_chat.embed_text svc (ai_chat.query q) = inr embedding ->
  ai_chat.search svc (ai_chat.replace ".sfdt" ".docx" (doc_title d))
    embedding (ai_chat.top_k q) = inr hits ->
  (forall answer,
     ai_chat.completion svc hits (ai_chat.query q) = inr answer ->
     ai_chat.chat_endpoint svc q s = (inr answer, s))
  /\ (forall msg,
        ai_chat.completion svc hits (ai_chat.query q) = inl msg ->
        http_status (ai_chat.chat_endpoint svc q s).1 = 500
        /\ (ai_chat.chat_endpoint svc q s).2 = s).
Proof.
  intros Hclient Hd Hembed Hsearch.
  unfold ai_chat.chat_endpoint, try_except, bind.
  rewrite (generalized_query_succeeds svc q d embedding hits s
             Hclient Hd Hembed Hsearch).
  cbn [snd]. unfold ai_chat.llm_query, try_except, call.
  split.
  - intros answer Hc. by rewrite Hc.
  - intros msg Hc. by rewrite Hc.
Qed.

Lemma chat_endpoint_answers_from_hits_witness :
  ai_chat.chat_endpoint sample_services sample_chat_query
    (sample_store NEW [])
  = (inr "answer", sample_store NEW []).
Proof.
  destruct (chat_endpoint_answers_from_hits sample_services
              sample_chat_query (sample_doc NEW []) tt []
              (sample_store NEW [])) as (Hok & _).
  - reflexivity.
  - reflexivity.
  - reflexivity.
  - reflexivity.
  - apply Hok. reflexivity.
Defined.

(** ** Replacing the extension *)

Lemma prefix_app (old s : string) : String.prefix old (old +:+ s) = true.
Proof.
  induction old as [|c old IH]; simpl; [by destruct s|].
  destruct (Ascii.ascii_dec c c); [exact IH | done].
Qed.

Lemma replace_from_skip old new pre s :
  ai_chat.replace_from old new (String.length pre) (pre +:+ s)
  = ai_chat.replace_from old new 0 s.
Proof. induction pre as [|c pre IH]; simpl; [reflexivity | exact IH]. Qed.

(** X28: [replace] leaves a text without occurrence of [old] as it is,
    and rewrites a leading occurrence of a non-empty [old] to [new]
    before going on with what follows it. *)
Theorem replace_rewrites_occurrences old new s :
  (~ occurs old s -> ai_chat.replace old new s = s)
  /\ (old ≠ "" ->
      ai_chat.replace old new (old +:+ s)
      = new +:+ ai_chat.replace old new s).
Proof.
  unfold ai_chat.replace. split.
  - induction s as [|c s IH]; [reflexivity|]. intros Hnot.
    cbn [ai_chat.replace_from].
    destruct (String.prefix old (String c s)) eqn:Hp.
    + exfalso. apply Hnot. by left.
    + f_equal. apply IH. intros Hocc. apply Hnot. by right.
  - destruct old as [|c old]; [done|]. intros _.
    change (String c old +:+ s) with (String c (old +:+ s)).
    cbn [ai_chat.replace_from].
    change (String c (old +:+ s)) with (String c old +:+ s).
    rewrite prefix_app. f_equal.
    replace (String.length (String c old) - 1)%nat with (String.length old)
      by (simpl; lia).
    apply replace_from_skip.
Qed.

(** X29: a title made of a stem without a dot and the extension ".sfdt"
    is searched under the stem with the extension ".docx". *)
Theorem replace_sfdt_extension stem :
  (forall c, c ∈ String.list_ascii_of_string stem -> c ≠ "."%char) ->
  ai_chat.replace ".sfdt" ".docx" (stem +:+ ".sfdt") = stem +:+ ".docx".
Proof.
  unfold ai_chat.replace. induction stem as [|c stem IH]; intros Hdot.
  - reflexivity.
  - change (String c stem +:+ ".sfdt") with (String c (stem +:+ ".sfdt")).
    cbn [ai_chat.replace_from].
    assert (Hc : c ≠ "."%char) by (apply Hdot; apply list_elem_of_here).
    assert (Hp : String.prefix ".sfdt" (String c (stem +:+ ".sfdt")) = false).
    { cbn [String.prefix].
      destruct (Ascii.ascii_dec "." c) as [Heq|]; [|reflexivity].
      by destruct Hc. }
    rewrite Hp.
    change (String c stem +:+ ".docx") with (String c (stem +:+ ".docx")).
    f_equal. apply IH.
    intros c' Hin. apply Hdot. by apply list_elem_of_further.
Qed.

Lemma replace_sfdt_extension_witness :
  ai_chat.replace ".sfdt" ".docx" "nda.sfdt" = "nda.docx".
Proof.
  apply (replace_sfdt_extension "nda").
  intros c Hin. simpl in Hin.
  repeat (apply elem_of_cons in Hin as [->|Hin]; [discriminate|]).
  by apply not_elem_of_nil in Hin.
Defined.

(** ** The store accessors, once more *)

(** X30: [update_document] never creates a document: for an id that
    names none the store stays exactly as it was; for an id that names
    one, every other document stays as it was. *)
Theorem update_document_touches_one_document now doc_id update_data s :
  (documents_collection s !! doc_id = None ->
   (database.update_document now doc_id update_data s).2 = s)
  /\ (forall other, other ≠ doc_id ->
      documents_collection
        (database.update_document now doc_id update_data s).2 !! other
      = documents_collection s !! other).
Proof.
  split.
  - intros Hnone. run. destruct s as [us ds cs]. unfold with_documents.
    simpl in *. f_equal. apply map_eq. intros k.
    destruct (decide (doc_id = k)) as [<-|Hne].
    + by rewrite lookup_alter_eq, Hnone.
    + by rewrite lookup_alter_ne.
  - intros other Hne. by apply update_document_lookup_ne.
Qed.
